(** * robotremoteserver: keyword dispatch and result marshalling

    A shallow embedding of [src/robotremoteserver.py] (the classes
    [RemoteLibrary], [KeywordRunner] and [KeywordResult]) together with the
    properties its specification states about them.

    Conventions of the embedding.
    - A Python text value ([unicode] under Python 2, [str] under Python 3) is
      a list of code points; a byte string ([str] under Python 2, [bytes]
      under Python 3) is a list of bytes.  Pure-ASCII literals of the source
      ('FAIL', 'Traceback ...', class names) are written as text: under
      Python 2 an ASCII native string compares and hashes equal to the same
      unicode text.
    - The interpreter the module was imported by is an explicit argument
      ([Interp]): the flag [PY3], the test [sys.platform == 'cli'], and the
      built-in conversions the embedding does not spell out.
    - A raised exception is a value; code that may raise returns [Exc].
    - The process-wide streams live in an explicit [World]. *)

From Stdlib Require Import ZArith NArith List Ascii String Strings.Byte DecimalString SpecFloat.
From stdpp Require Import gmap strings list fin_maps.

Set Warnings "-register-all".

Open Scope string_scope.
Open Scope list_scope.
Open Scope N_scope.

(** ** Text and bytes *)

Abbreviation text := (list N).
Abbreviation bytes := (list byte).

#[global] Instance byte_eq_decision : EqDecision byte := Byte.byte_eq_dec.

(** A text literal of the source, as code points. *)
Definition u (s : string) : text := map N_of_ascii (list_ascii_of_string s).

(** A bytes literal, as bytes. *)
Definition b8 (s : string) : bytes := list_byte_of_string s.

(** [str(data, 'latin-1')]: every byte is its own code point. *)
Definition decode_latin1 (b : bytes) : text := map Byte.to_N b.

(** [text.encode('ASCII')]: [None] stands for [UnicodeEncodeError]. *)
Fixpoint encode_ascii (s : text) : option bytes :=
  match s with
  | [] => Some []
  | c :: s' =>
      if c <? 128 then
        match Byte.of_N c, encode_ascii s' with
        | Some x, Some r => Some (x :: r)
        | _, _ => None
        end
      else None
  end.

(** The character class of [BINARY = re.compile('[\x00-\x08\x0B\x0C\x0E-\x1F]')]. *)
Definition BINARY_class (c : N) : bool :=
  (c <=? 8) || (c =? 11) || (c =? 12) || ((14 <=? c) && (c <=? 31)).

(** The character class of [NON_ASCII = re.compile('[\x80-\xff]')]. *)
Definition NON_ASCII_class (c : N) : bool := (128 <=? c) && (c <=? 255).

(** [BINARY.search(s)] on text, as a truth value. *)
Definition BINARY_search (s : text) : bool := existsb BINARY_class s.

(** [BINARY.search(b)] on a Python 2 byte string. *)
Definition BINARY_search_bytes (b : bytes) : bool :=
  existsb (fun x => BINARY_class (Byte.to_N x)) b.

(** [NON_ASCII.search(b)] on a Python 2 byte string. *)
Definition NON_ASCII_search (b : bytes) : bool :=
  existsb (fun x => NON_ASCII_class (Byte.to_N x)) b.

(** [s.startswith(prefix)] *)
Fixpoint startswith (s prefix : text) : bool :=
  match prefix, s with
  | [], _ => true
  | p :: prefix', c :: s' => (c =? p) && startswith s' prefix'
  | _ :: _, [] => false
  end.

(** [s.endswith(suffix)] *)
Definition endswith (s suffix : text) : bool :=
  startswith (rev s) (rev suffix).

(** Decimal rendering of an integer: [str(n)]. *)
Definition decimal (n : Z) : text := u (NilZero.string_of_int (Z.to_int n)).

Definition hex_digit (n : N) : N :=
  if n <? 10 then 48 + n else 87 + n.

(** ['%02x' % n] *)
Definition hex2N (n : N) : text := [hex_digit (n / 16); hex_digit (n mod 16)].

Definition hex2 (x : byte) : text := hex2N (Byte.to_N x).

(** [sep.join(parts)], on text or on bytes. *)
Fixpoint join {A : Type} (sep : list A) (parts : list (list A)) : list A :=
  match parts with
  | [] => []
  | [p] => p
  | p :: rest => p ++ sep ++ join sep rest
  end.

(** ** Python values *)

Inductive PyString :=
| Text (s : text)
| Bytes (b : bytes).

(** The values a keyword can receive, return, or carry in an exception.
    [PBinary] is an [xmlrpclib.Binary] / [xmlrpc.client.Binary] instance;
    [PList] and [PTuple] stand for every iterable that is neither a string
    nor a mapping; [PObject] is any other object, given by what
    [unicode(obj)] returns. *)
Inductive PyVal :=
| PNone
| PBool (b : bool)
| PInt (n : Z)
| PFloat (f : spec_float)
| PStr (s : PyString)
| PBinary (data : bytes)
| PList (items : list PyVal)
| PTuple (items : list PyVal)
| PDict (items : list (PyVal * PyVal))
| PObject (unicode_text : text).

(** A text value. *)
Definition PText (s : string) : PyVal := PStr (Text (u s)).

(** ** Exceptions *)

Inductive ExcClass :=
| AssertionError
| RuntimeError
| Exception
| ValueError
| TypeError
| UnicodeDecodeError
| AttributeError
| IndexError
| SystemExit
| KeyboardInterrupt
| UserClass (name : string) (derives_Exception : bool).

(** [exc_type.__name__] *)
Definition __name__ (c : ExcClass) : string :=
  match c with
  | AssertionError => "AssertionError"
  | RuntimeError => "RuntimeError"
  | Exception => "Exception"
  | ValueError => "ValueError"
  | TypeError => "TypeError"
  | UnicodeDecodeError => "UnicodeDecodeError"
  | AttributeError => "AttributeError"
  | IndexError => "IndexError"
  | SystemExit => "SystemExit"
  | KeyboardInterrupt => "KeyboardInterrupt"
  | UserClass name _ => name
  end.

(** [issubclass(exc_type, Exception)]: what [except Exception] catches. *)
Definition is_Exception (c : ExcClass) : bool :=
  match c with
  | SystemExit | KeyboardInterrupt => false
  | UserClass _ d => d
  | _ => true
  end.

(** [issubclass(exc_type, TypeError)]: what [except TypeError] catches. *)
Definition is_TypeError (c : ExcClass) : bool :=
  match c with TypeError => true | _ => false end.

(** A raised exception, as [sys.exc_info()] presents it: the class, the
    instance (what [unicode(value)] gives, [None] when that raises
    [UnicodeError]; its [args]; the truth of its ROBOT_ marker attributes)
    and the formatted traceback entries of the frames below the one that
    catches it. *)
Record PyExc := {
  exc_type : ExcClass;
  exc_unicode : option text;
  exc_args : list PyVal;
  ROBOT_SUPPRESS_NAME : bool;
  ROBOT_CONTINUE_ON_FAILURE : bool;
  ROBOT_EXIT_ON_FAILURE : bool;
  exc_frames : list text
}.

(** An exception instance built as [cls(message)], with no marker attribute. *)
Definition plain_exc (cls : ExcClass) (message : text) : PyExc :=
  {| exc_type := cls; exc_unicode := Some message;
     exc_args := [PStr (Text message)];
     ROBOT_SUPPRESS_NAME := false; ROBOT_CONTINUE_ON_FAILURE := false;
     ROBOT_EXIT_ON_FAILURE := false; exc_frames := [] |}.

(** Results of code that may raise. *)
Inductive Exc (A : Type) :=
| Ok (a : A)
| Raise (e : PyExc).
Arguments Ok {A} a.
Arguments Raise {A} e.

#[global] Instance Exc_ret : MRet Exc := @Ok.
#[global] Instance Exc_bind : MBind Exc := fun A B f m =>
  match m with
  | Ok a => f a
  | Raise e => Raise e
  end.

(** ** The interpreter *)

Record Interp := {
  (** the module-level flag [PY3] ([PY2] is its negation) *)
  PY3 : bool;
  (** [sys.platform == 'cli'] *)
  platform_cli : bool;
  (** [repr(s)] of a text value, as ['%r' % s] renders it *)
  repr_text : text -> text;
  (** [str(v)] / [unicode(v)] for the values whose rendering is the
      interpreter's own business: floats, containers, Python 3 bytes *)
  builtin_str : PyVal -> text
}.

(** [bytes.decode('ascii')], the implicit coercion of Python 2. *)
Fixpoint decode_ascii_from (pos : Z) (b : bytes) : Exc text :=
  match b with
  | [] => Ok []
  | x :: b' =>
      if Byte.to_N x <? 128 then
        r ← decode_ascii_from (pos + 1)%Z b'; Ok (Byte.to_N x :: r)
      else
        Raise (plain_exc UnicodeDecodeError
                 (u "'ascii' codec can't decode byte 0x" ++ hex2 x ++
                  u " in position " ++ decimal pos ++
                  u ": ordinal not in range(128)"))
  end.

Definition decode_ascii (b : bytes) : Exc text := decode_ascii_from 0%Z b.

(** [unicode(v)] (Python 2) / [str(v)] (Python 3). *)
Definition unicode (I : Interp) (v : PyVal) : Exc text :=
  match v with
  | PNone => Ok (u "None")
  | PBool true => Ok (u "True")
  | PBool false => Ok (u "False")
  | PInt n => Ok (decimal n)
  | PStr (Text s) => Ok s
  | PStr (Bytes b) => if PY3 I then Ok (builtin_str I v) else decode_ascii b
  | PBinary d => if PY3 I then Ok (decode_latin1 d) else decode_ascii d
  | PObject s => Ok s
  | PFloat _ | PList _ | PTuple _ | PDict _ => Ok (builtin_str I v)
  end.

(** [Binary(data)], where [data] is a byte string or, when [from_str],
    the [str(...)] of one: Python 3's class accepts bytes only and raises
    on a [str]; Python 2's class stores what it is given (the native
    string of the same bytes). *)
Definition Binary (I : Interp) (from_str : bool) (data : bytes) : Exc PyVal :=
  if from_str && PY3 I then
    Raise (plain_exc TypeError (u "expected bytes or bytearray, not str"))
  else Ok (PBinary data).

(** ** Built-in operations of the interpreter *)

Section Loops.
Context {A B : Type}.

(** [f(x) for x in xs], stopping at the first exception. *)
Definition Exc_map (f : A -> Exc B) : list A -> Exc (list B) :=
  fix loop (xs : list A) : Exc (list B) :=
    match xs with
    | [] => Ok []
    | x :: rest => y ← f x; r ← loop rest; Ok (y :: r)
    end.

(** A loop that threads an accumulator, stopping at the first exception. *)
Definition Exc_fold (f : B -> A -> Exc B) : list A -> B -> Exc B :=
  fix loop (xs : list A) (acc : B) : Exc B :=
    match xs with
    | [] => Ok acc
    | x :: rest => acc' ← f acc x; loop rest acc'
    end.
End Loops.

(** [Exc_map] for a function that is told the position of its argument. *)
Fixpoint Exc_mapi {A B : Type} (f : Z -> A -> Exc B) (i : Z) (xs : list A)
  : Exc (list B) :=
  match xs with
  | [] => Ok []
  | x :: rest => y ← f i x; r ← Exc_mapi f (i + 1)%Z rest; Ok (y :: r)
  end.

(** [type(v).__name__] *)
Definition type_name (I : Interp) (v : PyVal) : string :=
  match v with
  | PNone => "NoneType"
  | PBool _ => "bool"
  | PInt _ => "int"
  | PFloat _ => "float"
  | PStr (Text _) => if PY3 I then "str" else "unicode"
  | PStr (Bytes _) => if PY3 I then "bytes" else "str"
  | PBinary _ => if PY3 I then "Binary" else "instance"
  | PList _ => "list"
  | PTuple _ => "tuple"
  | PDict _ => "dict"
  | PObject _ => "object"
  end.

(** [bool(v)], as [not message] reads it. *)
Definition truthy (v : PyVal) : bool :=
  match v with
  | PNone => false
  | PBool b => b
  | PInt n => negb (n =? 0)%Z
  | PFloat (S754_zero _) => false
  | PFloat _ => true
  | PStr (Text s) => negb (bool_decide (s = []))
  | PStr (Bytes b) => negb (bool_decide (b = []))
  | PBinary _ => true
  | PList l | PTuple l => negb (bool_decide (length l = 0%nat))
  | PDict d => negb (bool_decide (length d = 0%nat))
  | PObject _ => true
  end.

(** [a == b] on strings: text and bytes never compare equal under
    Python 3; Python 2 decodes the byte string as ASCII first and calls
    the two unequal when that fails. *)
Definition str_eq (I : Interp) (a b : PyString) : bool :=
  match a, b with
  | Text x, Text y => bool_decide (x = y)
  | Bytes x, Bytes y => bool_decide (x = y)
  | Text x, Bytes y | Bytes y, Text x =>
      negb (PY3 I) && forallb (fun c => Byte.to_N c <? 128) y
      && bool_decide (decode_latin1 y = x)
  end.

(** Whether a float is the integer [z]. *)
Definition float_eq_Z (f : spec_float) (z : Z) : bool :=
  match f with
  | S754_zero _ => (z =? 0)%Z
  | S754_finite s m e =>
      let zm := if s then Z.neg m else Z.pos m in
      if (0 <=? e)%Z then (zm * 2 ^ e =? z)%Z else (zm =? z * 2 ^ (- e))%Z
  | _ => false
  end.

(** [value == default], for the two defaults the source compares against:
    the string [''] and the boolean [False].  A [Binary] compares its payload. *)
Definition py_eq (I : Interp) (value default : PyVal) : bool :=
  match default with
  | PStr d =>
      match value with
      | PStr s => str_eq I s d
      | PBinary data => str_eq I (Bytes data) d
      | _ => false
      end
  | PBool d =>
      match value with
      | PBool b => Bool.eqb b d
      | PInt n => (n =? (if d then 1 else 0))%Z
      | PFloat f => float_eq_Z f (if d then 1 else 0)%Z
      | _ => false
      end
  | _ => false
  end.

(** [value != default] *)
Definition py_ne (I : Interp) (value default : PyVal) : bool :=
  negb (py_eq I value default).

(** Whether [hash(k)] succeeds, for the keys [_str] produces: a [Binary]
    defines equality and no hash. *)
Definition hashable (k : PyVal) : bool :=
  match k with
  | PBinary _ | PList _ | PDict _ => false
  | _ => true
  end.

(** What [hash(k)] raises otherwise. *)
Definition unhashable (I : Interp) (k : PyVal) : PyExc :=
  plain_exc TypeError
    (match k with
     | PBinary _ =>
         if PY3 I then u "unhashable type: 'Binary'" else u "unhashable instance"
     | _ => u "unhashable type: '" ++ u (type_name I k) ++ u "'"
     end).

(** Equality of two keys of the dict built from [_str] results (strings). *)
Definition py_key_eq (I : Interp) (k1 k2 : PyVal) : bool :=
  match k1, k2 with
  | PStr a, PStr b => str_eq I a b
  | _, _ => false
  end.

(** [d[k] = v] on an insertion-ordered dict. *)
Fixpoint dict_update (I : Interp) (d : list (PyVal * PyVal)) (k v : PyVal)
  : list (PyVal * PyVal) :=
  match d with
  | [] => [(k, v)]
  | (k0, v0) :: d' =>
      if py_key_eq I k0 k then (k0, v) :: d'
      else (k0, v0) :: dict_update I d' k v
  end.

(** What [join] raises on an item of the wrong type. *)
Definition join_type_error (I : Interp) (i : Z) (p : PyVal) : PyExc :=
  plain_exc TypeError
    (u "sequence item " ++ decimal i ++
     (if PY3 I then u ": expected str instance, " else u ": expected string, ")
     ++ u (type_name I p) ++ u " found").

(** All the items as byte strings, when every one of them is one. *)
Fixpoint all_bytes (parts : list PyVal) : option (list bytes) :=
  match parts with
  | [] => Some []
  | PStr (Bytes b) :: rest =>
      match all_bytes rest with Some r => Some (b :: r) | None => None end
  | _ :: _ => None
  end.

(** [' '.join(parts)]: Python 3 joins text only; Python 2 joins native
    strings as they are and, as soon as one item is unicode, decodes the
    others as ASCII. *)
Definition join_space (I : Interp) (parts : list PyVal) : Exc PyString :=
  if PY3 I then
    texts ← Exc_mapi (fun i p =>
               match p with
               | PStr (Text s) => Ok s
               | _ => Raise (join_type_error I i p)
               end) 0%Z parts;
    Ok (Text (join (u " ") texts))
  else
    match all_bytes parts with
    | Some bs => Ok (Bytes (join (b8 " ") bs))
    | None =>
        texts ← Exc_mapi (fun i p =>
                   match p with
                   | PStr (Text s) => Ok s
                   | PStr (Bytes b) => decode_ascii b
                   | _ => Raise (join_type_error I i p)
                   end) 0%Z parts;
        Ok (Text (join (u " ") texts))
    end.

(** ['%s<sep>%s' % (name, v)] for an ASCII [name]: text, unless [v] renders
    as a Python 2 native string. *)
Definition format_pair (I : Interp) (name sep : string) (v : PyVal) : Exc PyVal :=
  match v with
  | PStr (Text m) => Ok (PStr (Text (u name ++ u sep ++ m)))
  | PStr (Bytes b) | PBinary b =>
      if PY3 I then
        t ← unicode I v; Ok (PStr (Text (u name ++ u sep ++ t)))
      else Ok (PStr (Bytes (b8 name ++ b8 sep ++ b)))
  | _ => t ← unicode I v; Ok (PStr (Text (u name ++ u sep ++ t)))
  end.

(** ** KeywordResult: value encoding *)

Module KeywordResult.

Definition _contains_binary (I : Interp) (result : PyString) : bool :=
  if PY3 I then
    match result with
    | Bytes _ => true
    | Text s => BINARY_search s
    end
  else
    match result with
    | Bytes b => NON_ASCII_search b || BINARY_search_bytes b
    | Text s => BINARY_search s
    end.

Definition _handle_binary_result (I : Interp) (result : PyString) : Exc PyVal :=
  if negb (_contains_binary I result) then Ok (PStr result)
  else
    data ← match result with
           | Bytes b => Ok b
           | Text s =>
               match encode_ascii s with
               | Some b => Ok b
               | None =>
                   Raise (plain_exc ValueError
                            (u "Cannot represent " ++ repr_text I s ++
                             u " as binary."))
               end
           end;
    (* if sys.platform == 'cli': result = str(result) *)
    Binary I (platform_cli I) data.

(** [_str(item, handle_binary)] *)
Definition _str (I : Interp) (item : PyVal) (handle_binary : bool) : Exc PyVal :=
  match item with
  | PNone => Ok (PStr (Text []))
  | _ =>
      s ← match item with
          | PStr s => Ok s
          | _ => t ← unicode I item; Ok (Text t)
          end;
      if handle_binary then _handle_binary_result I s else Ok (PStr s)
  end.

(** The dict built by [dict((key, value) for ...)]: [__setitem__] hashes
    the key first, overwrites the value of an equal key in place, and
    appends a new key otherwise. *)
Definition dict_setitem (I : Interp) (d : list (PyVal * PyVal)) (k v : PyVal)
  : Exc (list (PyVal * PyVal)) :=
  if hashable k then Ok (dict_update I d k v)
  else Raise (unhashable I k).

Fixpoint _handle_return_value (I : Interp) (ret : PyVal) : Exc PyVal :=
  match ret with
  | PStr s => _handle_binary_result I s
  | PInt _ | PBool _ | PFloat _ => Ok ret
  | PDict items =>
      d ← Exc_fold (fun acc '(key, value) =>
                      k ← _str I key true;
                      v ← _handle_return_value I value;
                      dict_setitem I acc k v) items [];
      Ok (PDict d)
  | PList items | PTuple items =>
      match Exc_map (_handle_return_value I) items with
      | Ok l => Ok (PList l)
      | Raise e =>
          (* except TypeError *)
          if is_TypeError (exc_type e) then _str I ret true else Raise e
      end
  | PNone | PBinary _ | PObject _ =>
      (* iterating over [ret] raises TypeError *)
      _str I ret true
  end.

Definition _get_message_from_exception (I : Interp) (value : PyExc) : Exc PyVal :=
  msg ← match exc_unicode value with
        | Some m => Ok (Text m)
        | None =>
            (* except UnicodeError *)
            parts ← Exc_map (fun a => _str I a false) (exc_args value);
            join_space I parts
        end;
  _handle_binary_result I msg.

(** [exc_type in self._generic_exceptions] *)
Definition _generic_exceptions (c : ExcClass) : bool :=
  match c with
  | AssertionError | RuntimeError | Exception => true
  | _ => false
  end.

Definition _get_error_message (I : Interp) (e : PyExc) : Exc PyVal :=
  let name := __name__ (exc_type e) in
  message ← _get_message_from_exception I e;
  if negb (truthy message) then Ok (PText name)
  else if _generic_exceptions (exc_type e) || ROBOT_SUPPRESS_NAME e
  then Ok message
  else format_pair I name ": " message.

Definition _get_error_traceback (exc_tb : list text) : PyVal :=
  let entries := tail exc_tb in
  let trace := concat entries in
  PStr (Text (u "Traceback (most recent call last):" ++ [10] ++ trace)).

Definition _get_error_attribute (exc_value : PyExc) (name : string) : bool :=
  if String.eqb name "CONTINUE" then ROBOT_CONTINUE_ON_FAILURE exc_value
  else if String.eqb name "EXIT" then ROBOT_EXIT_ON_FAILURE exc_value
  else false.

(** [self.data = {'status': 'FAIL'}] *)
Definition __init__ : gmap string PyVal := {[ "status" := PText "FAIL" ]}.

Definition _add (I : Interp) (key : string) (value default : PyVal)
    (data : gmap string PyVal) : gmap string PyVal :=
  if py_ne I value default then <[key := value]> data else data.

Definition set_error (I : Interp) (e : PyExc) (exc_tb : option (list text))
    (data : gmap string PyVal) : Exc (gmap string PyVal) :=
  message ← _get_error_message I e;
  let data := _add I "error" message (PText "") data in
  let data := match exc_tb with
              | Some tb => _add I "traceback" (_get_error_traceback tb) (PText "") data
              | None => data
              end in
  let data := _add I "continuable" (PBool (_get_error_attribute e "CONTINUE"))
                (PBool false) data in
  let data := _add I "fatal" (PBool (_get_error_attribute e "EXIT"))
                (PBool false) data in
  Ok data.

Definition set_return (I : Interp) (value : PyVal) (data : gmap string PyVal)
  : Exc (gmap string PyVal) :=
  v ← _handle_return_value I value;
  Ok (_add I "return" v (PText "") data).

Definition set_status (status : string) (data : gmap string PyVal)
  : gmap string PyVal :=
  <["status" := PText status]> data.

Definition set_output (I : Interp) (output : text) (data : gmap string PyVal)
  : Exc (gmap string PyVal) :=
  match output with
  | [] => Ok data
  | _ => v ← _handle_binary_result I (Text output); Ok (<["output" := v]> data)
  end.

End KeywordResult.

(** ** The process-wide streams *)

(** What [sys.stdout] or [sys.stderr] can be bound to: the interpreter's
    original streams, a [StringIO] (by its address in the heap), or any
    other file-like object the host has installed. *)
Inductive Stream :=
| sys___stdout__
| sys___stderr__
| StringIO_at (addr : nat)
| OtherStream (id : nat).

Record StringIO := {
  buffer : text;
  closed : bool
}.

Record World := {
  sys_stdout : Stream;
  sys_stderr : Stream;
  heap : list StringIO
}.

(** [stream.write(txt)]: only what goes into an open [StringIO] is tracked. *)
Definition write (w : World) (stream : Stream) (txt : text) : World :=
  match stream with
  | StringIO_at a =>
      match heap w !! a with
      | Some io =>
          if closed io then w
          else {| sys_stdout := sys_stdout w; sys_stderr := sys_stderr w;
                  heap := <[a := {| buffer := buffer io ++ txt; closed := false |}]> (heap w) |}
      | None => w
      end
  | _ => w
  end.

(** [stream.getvalue()] *)
Definition getvalue (w : World) (stream : Stream) : Exc text :=
  match stream with
  | StringIO_at a =>
      match heap w !! a with
      | Some io =>
          if closed io
          then Raise (plain_exc ValueError (u "I/O operation on closed file"))
          else Ok (buffer io)
      | None => Raise (plain_exc AttributeError (u "getvalue"))
      end
  | _ => Raise (plain_exc AttributeError (u "getvalue"))
  end.

(** [stream.close()] *)
Definition close (w : World) (stream : Stream) : World :=
  match stream with
  | StringIO_at a =>
      match heap w !! a with
      | Some io =>
          {| sys_stdout := sys_stdout w; sys_stderr := sys_stderr w;
             heap := <[a := {| buffer := buffer io; closed := true |}]> (heap w) |}
      | None => w
      end
  | _ => w
  end.

(** ** Keywords *)

(** What one call of a keyword does: what it prints to [sys.stdout] and
    [sys.stderr], and the value it returns or the exception it raises.
    (A keyword that rebinds or closes the two streams itself is not
    modelled.) *)
Record Run := {
  printed_out : text;
  printed_err : text;
  result : Exc PyVal
}.

(** [inspect.getargspec(kw)] *)
Record ArgSpec := {
  args : list string;
  varargs : option string;
  keywords : option string;
  defaults : option (list PyVal)
}.

(** A function or a method: [inspect.isfunction(kw) or inspect.ismethod(kw)]. *)
Record Keyword := {
  ismethod : bool;
  getargspec : ArgSpec;
  call : list PyVal -> list (string * PyVal) -> Run
}.

(** The traceback entry of the frame of [run_keyword] itself. *)
Definition dispatch_frame : text :=
  u "  File " ++ [34] ++ u "robotremoteserver.py" ++ [34] ++
  u ", line 212, in run_keyword" ++ [10] ++
  u "    return_value = self._keyword(" ++ u "*args, **kwargs)" ++ [10].

(** ** KeywordRunner *)

Module KeywordRunner.

Definition _handle_binary_arg (arg : PyVal) : PyVal :=
  match arg with
  | PBinary data => PStr (Bytes data)
  | _ => arg
  end.

Definition _handle_binary_args (args : list PyVal) (kwargs : list (string * PyVal))
  : list PyVal * list (string * PyVal) :=
  (map _handle_binary_arg args,
   map (fun '(k, v) => (k, _handle_binary_arg v)) kwargs).

Definition _intercept_std_streams (w : World) : World :=
  let out := length (heap w) in
  let err := S out in
  {| sys_stdout := StringIO_at out;
     sys_stderr := StringIO_at err;
     heap := heap w ++ [ {| buffer := []; closed := false |};
                         {| buffer := []; closed := false |} ] |}.

(** The severity markers of [stderr.startswith((...))]. *)
Definition markers : list text :=
  [u "*TRACE*"; u "*DEBUG*"; u "*INFO*"; u "*HTML*"; u "*WARN*"; u "*ERROR*"].

(** The tail of [_restore_std_streams]: from the two captured texts to
    the returned one. *)
Definition merge (stdout stderr : text) : text :=
  let '(stdout, stderr) :=
    match stdout, stderr with
    | _ :: _, _ :: _ =>
        let stderr :=
          if negb (existsb (startswith stderr) markers)
          then u "*INFO* " ++ stderr else stderr in
        let stdout :=
          if negb (endswith stdout [10]) then stdout ++ [10] else stdout in
        (stdout, stderr)
    | _, _ => (stdout, stderr)
    end in
  stdout ++ stderr.

Definition _restore_std_streams (w : World) : World * Exc text :=
  match getvalue w (sys_stdout w) with
  | Raise e => (w, Raise e)
  | Ok stdout =>
      match getvalue w (sys_stderr w) with
      | Raise e => (w, Raise e)
      | Ok stderr =>
          let to_close := [sys_stdout w; sys_stderr w] in
          let w := {| sys_stdout := sys___stdout__;
                      sys_stderr := sys___stderr__;
                      heap := heap w |} in
          let w := fold_left close to_close w in
          (w, Ok (merge stdout stderr))
      end
  end.

(** The call of [self._keyword] on the arguments: calling [None] raises; a keyword
    prints to whatever the two streams are bound to. *)
Definition invoke (keyword : option Keyword) (args : list PyVal)
    (kwargs : list (string * PyVal)) (w : World) : World * Exc PyVal :=
  match keyword with
  | None =>
      (w, Raise (plain_exc TypeError (u "'NoneType' object is not callable")))
  | Some kw =>
      let r := call kw args kwargs in
      let w := write w (sys_stdout w) (printed_out r) in
      let w := write w (sys_stderr w) (printed_err r) in
      (w, result r)
  end.

(** The [try] / [except] / [else] part of [run_keyword]: the data of the
    result object when control reaches [finally], and the exception in
    flight, if any.  [set_error] and [set_return] raise before they
    touch the data. *)
Definition attempt (I : Interp) (returned : Exc PyVal)
  : gmap string PyVal * option PyExc :=
  let result := KeywordResult.__init__ in
  match returned with
  | Raise e =>
      if is_Exception (exc_type e) then
        match KeywordResult.set_error I e (Some (dispatch_frame :: exc_frames e)) result with
        | Ok data => (data, None)
        | Raise e' => (result, Some e')
        end
      else (result, Some e)
  | Ok return_value =>
      match KeywordResult.set_return I return_value result with
      | Raise e =>
          if is_Exception (exc_type e) then
            match KeywordResult.set_error I e None result with
            | Ok data => (data, None)
            | Raise e' => (result, Some e')
            end
          else (result, Some e)
      | Ok data => (KeywordResult.set_status "PASS" data, None)
      end
  end.

Definition run_keyword (I : Interp) (keyword : option Keyword)
    (args : list PyVal) (kwargs : option (list (string * PyVal))) (w : World)
  : World * Exc (gmap string PyVal) :=
  let '(args, kwargs) := _handle_binary_args args (default [] kwargs) in
  let w := _intercept_std_streams w in
  let '(w, returned) := invoke keyword args kwargs w in
  let '(data, in_flight) := attempt I returned in
  (* finally: *)
  let '(w, output) := _restore_std_streams w in
  match output with
  | Raise e => (w, Raise e)
  | Ok output =>
      match KeywordResult.set_output I output data with
      | Raise e => (w, Raise e)
      | Ok data =>
          match in_flight with
          | Some e => (w, Raise e)
          | None => (w, Ok data)
          end
      end
  end.

End KeywordRunner.

(** ** RemoteLibrary *)

(** An attribute of the hosted library: a function or method, or anything
    else (given by its value). *)
Inductive Attr :=
| Callable (kw : Keyword)
| Plain (v : PyVal).

Module RemoteLibrary.

(** The hosted library as [dir(library)] lists it, and the stop
    capability handed to the constructor. *)
Record t := {
  _library : list (string * Attr);
  _stop_remote_server : option Keyword
}.

(** [getattr(self._library, name, None)] *)
Fixpoint getattr (attrs : list (string * Attr)) (name : string) : option Attr :=
  match attrs with
  | [] => None
  | (n, a) :: rest => if String.eqb n name then Some a else getattr rest name
  end.

Definition _is_function_or_method (item : option Attr) : option Keyword :=
  match item with
  | Some (Callable kw) => Some kw
  | _ => None
  end.

(** The truth value of an attribute, as [or] reads it. *)
Definition attr_truthy (item : option Attr) : bool :=
  match item with
  | Some (Callable _) => true
  | Some (Plain v) => truthy v
  | None => false
  end.

(** The list comprehension of [get_keyword_names]. *)
Fixpoint scan (self : t) (attrs : list (string * Attr)) : Exc (list PyVal) :=
  match attrs with
  | [] => Ok []
  | (attr, _) :: rest =>
      match attr with
      | EmptyString =>
          Raise (plain_exc IndexError (u "string index out of range"))
      | String c _ =>
          let keep :=
            negb (Ascii.eqb c "_") &&
            bool_decide (is_Some (_is_function_or_method (getattr (_library self) attr))) in
          r ← scan self rest;
          Ok (if keep then PText attr :: r else r)
      end
  end.

(** [names.append('stop_remote_server')] *)
Definition append_stop (I : Interp) (names : PyVal) : Exc PyVal :=
  match names with
  | PList l => Ok (PList (l ++ [PText "stop_remote_server"]))
  | _ =>
      Raise (plain_exc AttributeError
               (u "'" ++ u (type_name I names) ++
                u "' object has no attribute 'append'"))
  end.

Definition get_keyword_names (I : Interp) (self : t) : Exc PyVal :=
  let first := getattr (_library self) "get_keyword_names" in
  let get_kw_names :=
    if attr_truthy first then first
    else getattr (_library self) "getKeywordNames" in
  names ← match _is_function_or_method get_kw_names with
          | Some enumerate => result (call enumerate [] [])
          | None => l ← scan self (_library self); Ok (PList l)
          end;
  match _stop_remote_server self with
  | Some _ => append_stop I names
  | None => Ok names
  end.

Definition _get_keyword (self : t) (name : string) : option Keyword :=
  if String.eqb name "stop_remote_server" then _stop_remote_server self
  else _is_function_or_method (getattr (_library self) name).

Definition run_keyword (I : Interp) (self : t) (name : string)
    (args : list PyVal) (kwargs : option (list (string * PyVal))) (w : World)
  : World * Exc (gmap string PyVal) :=
  let kw := _get_keyword self name in
  KeywordRunner.run_keyword I kw args kwargs w.

Definition _arguments_from_kw (I : Interp) (kw : Keyword) : Exc (list PyVal) :=
  let spec := getargspec kw in
  let args := args spec in
  let args := if ismethod kw then tail args else args in   (* drop 'self' *)
  args ← match defaults spec with
         | Some ((_ :: _) as defaults) =>
             let n := (length args - length defaults)%nat in
             let names := drop n args in
             let args := take n args in
             rendered ← Exc_map (fun '(n, d) => format_pair I n "=" d)
                          (zip names defaults);
             Ok (map PText args ++ rendered)
         | _ => Ok (map PText args)
         end;
  let args := match varargs spec with
              | Some (String _ _ as v) => args ++ [PText ("*" ++ v)]
              | _ => args
              end in
  let args := match keywords spec with
              | Some (String _ _ as k) => args ++ [PText ("**" ++ k)]
              | _ => args
              end in
  Ok args.

Definition get_keyword_arguments (I : Interp) (self : t) (name : string)
  : Exc (list PyVal) :=
  match _get_keyword self name with
  | None => Ok []
  | Some kw => _arguments_from_kw I kw
  end.

End RemoteLibrary.

(** ** Interpreters and inputs for the examples *)

(** [repr] of one character of a Python 3 text: backslash, apostrophe and
    the control characters are escaped. *)
Definition repr_char (c : N) : text :=
  if c =? 92 then [92; 92]
  else if c =? 39 then [92; 39]
  else if c =? 10 then [92; 110]
  else if c =? 13 then [92; 114]
  else if c =? 9 then [92; 116]
  else if (c <? 32) || (c =? 127) then [92; 120] ++ hex2N c
  else [c].

Definition repr3 (s : text) : text := [39] ++ flat_map repr_char s ++ [39].

(** Python 2 also escapes what is not ASCII, and marks the literal with [u]. *)
Definition repr2 (s : text) : text :=
  [117; 39] ++
  flat_map (fun c =>
              if c <? 128 then repr_char c
              else if c <? 256 then [92; 120] ++ hex2N c
              else [92; 117] ++ hex2N (c / 256) ++ hex2N (c mod 256)) s
  ++ [39].

(** CPython 3 and CPython 2.  The rendering of floats and containers plays
    no part in the examples. *)
Definition cpython3 : Interp :=
  {| PY3 := true; platform_cli := false; repr_text := repr3;
     builtin_str := fun _ => u "..." |}.

Definition cpython2 : Interp :=
  {| PY3 := false; platform_cli := false; repr_text := repr2;
     builtin_str := fun _ => u "..." |}.

(** A function of no parameter that behaves as [r] says. *)
Definition keyword_doing (r : Run) : Keyword :=
  {| ismethod := false;
     getargspec := {| args := []; varargs := None; keywords := None;
                      defaults := None |};
     call := fun _ _ => r |}.

(** A keyword that prints nothing and returns [v]. *)
Definition returning (v : PyVal) : Keyword :=
  keyword_doing {| printed_out := []; printed_err := []; result := Ok v |}.

(** A keyword that prints nothing and raises [e]. *)
Definition raising (e : PyExc) : Keyword :=
  keyword_doing {| printed_out := []; printed_err := []; result := Raise e |}.

(** A process whose standard output has been replaced by the host. *)
Definition hosted_world : World :=
  {| sys_stdout := OtherStream 0; sys_stderr := sys___stderr__; heap := [] |}.

(** ** Observations the statements are written with *)

(** What one invocation does, seen from [run_keyword]: the run of the
    keyword on the decoded arguments, or the failed call of [None]. *)
Definition the_run (keyword : option Keyword) (args : list PyVal)
    (kwargs : option (list (string * PyVal))) : Run :=
  match keyword with
  | None =>
      {| printed_out := []; printed_err := [];
         result := Raise (plain_exc TypeError (u "'NoneType' object is not callable")) |}
  | Some kw =>
      let '(a, k) := KeywordRunner._handle_binary_args args (default [] kwargs) in
      call kw a k
  end.

(** The world after an invocation: the original streams are back and the
    two capture buffers, closed, hold what was printed. *)
Definition restored (w : World) (r : Run) : World :=
  {| sys_stdout := sys___stdout__;
     sys_stderr := sys___stderr__;
     heap := heap w ++ [ {| buffer := printed_out r; closed := true |};
                         {| buffer := printed_err r; closed := true |} ] |}.

(** The merged text, as the specification words it: the standard-output
    part followed by the standard-error part, amended only when both are
    non-empty. *)
Definition merged_as_specified (stdout stderr r : text) : Prop :=
  exists out' err',
    r = out' ++ err' /\
    (stdout = [] -> stderr = [] -> r = []) /\
    (stdout = [] \/ stderr = [] -> out' = stdout /\ err' = stderr) /\
    (stdout <> [] -> stderr <> [] ->
       ((exists front, stdout = front ++ [10]) -> out' = stdout) /\
       (~ (exists front, stdout = front ++ [10]) -> out' = stdout ++ [10]) /\
       ((exists m rest,
           In m [u "*TRACE*"; u "*DEBUG*"; u "*INFO*"; u "*HTML*"; u "*WARN*";
                 u "*ERROR*"] /\ stderr = m ++ rest) -> err' = stderr) /\
       (~ (exists m rest,
           In m [u "*TRACE*"; u "*DEBUG*"; u "*INFO*"; u "*HTML*"; u "*WARN*";
                 u "*ERROR*"] /\ stderr = m ++ rest) ->
        err' = u "*INFO* " ++ stderr)).

(** A world in which capture is engaged and something was printed to both
    streams. *)
Definition capturing_world : World :=
  {| sys_stdout := StringIO_at 0; sys_stderr := StringIO_at 1;
     heap := [ {| buffer := u "done"; closed := false |};
               {| buffer := u "careful"; closed := false |} ] |}.

(** The control characters outside tab, line feed and carriage return:
    \x00-\x08, \x0B, \x0C, \x0E-\x1F. *)
Definition control_char (c : N) : Prop :=
  c <= 8 \/ c = 11 \/ c = 12 \/ (14 <= c /\ c <= 31).

(** Binary-unsafe, as the specification words it: raw bytes with non-ASCII
    content, or a value holding such a control character. *)
Definition unsafe_as_specified (s : PyString) : Prop :=
  match s with
  | Bytes b =>
      (exists x, In x b /\ 128 <= Byte.to_N x) \/
      (exists x, In x b /\ control_char (Byte.to_N x))
  | Text t => exists c, In c t /\ control_char c
  end.

(** An exception whose displayed text can be computed. *)
Definition describable (I : Interp) (e : PyExc) : Prop :=
  exists m, KeywordResult._get_error_message I e = Ok m.

(** A captured text the encoder accepts. *)
Definition representable (I : Interp) (s : text) : Prop :=
  exists v, KeywordResult._handle_binary_result I (Text s) = Ok v.

(** The failures of an invocation the dispatch recovers from: the name
    resolved to no callable; the callable raised an [Exception]; the value
    it returned could not be normalized. *)
Definition recovered_failure (I : Interp) (keyword : option Keyword)
    (returned : Exc PyVal) : Prop :=
  keyword = None \/
  (exists e, returned = Raise e /\ is_Exception (exc_type e) = true /\
             describable I e) \/
  (exists v e, returned = Ok v /\
               KeywordResult._handle_return_value I v = Raise e /\
               describable I e).


(** The string a mapping key is coerced to: a string as it is, the null
    value as the empty text, any other hashable value stringified. *)
Definition key_text (I : Interp) (key : PyVal) : option PyString :=
  match key with
  | PNone => Some (Text [])
  | PStr s => Some s
  | PBool true => Some (Text (u "True"))
  | PBool false => Some (Text (u "False"))
  | PInt n => Some (Text (decimal n))
  | PObject t => Some (Text t)
  | PFloat _ | PTuple _ => Some (Text (builtin_str I key))
  | PBinary _ | PList _ | PDict _ => None
  end.

Definition key_form (I : Interp) (key : PyVal) : PyVal :=
  match key_text I key with
  | Some s => PStr s
  | None => key
  end.

(** No two of the strings are equal. *)
Fixpoint distinct_keys (I : Interp) (ks : list PyString) : bool :=
  match ks with
  | [] => true
  | k :: rest =>
      forallb (fun k' => negb (str_eq I k k')) rest && distinct_keys I rest
  end.

(** The structures the round-trip property is about: sequences and
    mappings, nested at will, whose leaves are integers, floats, booleans
    and binary-safe strings, and whose keys are coerced to binary-safe
    strings no two of which are equal. *)
Fixpoint plain (I : Interp) (v : PyVal) : bool :=
  match v with
  | PBool _ | PInt _ | PFloat _ => true
  | PStr s => negb (KeywordResult._contains_binary I s)
  | PList items | PTuple items => forallb (plain I) items
  | PDict items =>
      forallb (fun '(key, value) =>
                 match key_text I key with
                 | Some s => negb (KeywordResult._contains_binary I s)
                 | None => false
                 end && plain I value) items
      && distinct_keys I (omap (fun kv => key_text I (fst kv)) items)
  | PNone | PBinary _ | PObject _ => false
  end.

(** The same structure as a transport value: every sequence a list, every
    key its string, every leaf as it was. *)
Fixpoint transport_form (I : Interp) (v : PyVal) : PyVal :=
  match v with
  | PList items | PTuple items => PList (map (transport_form I) items)
  | PDict items =>
      PDict (map (fun '(key, value) => (key_form I key, transport_form I value))
               items)
  | _ => v
  end.

(** Every key of every mapping in the structure is text (under Python 2,
    text or a native string). *)
Fixpoint keys_are_text (I : Interp) (v : PyVal) : bool :=
  match v with
  | PList items | PTuple items => forallb (keys_are_text I) items
  | PDict items =>
      forallb (fun '(key, value) =>
                 match key with
                 | PStr (Text _) => true
                 | PStr (Bytes _) => negb (PY3 I)
                 | _ => false
                 end && keys_are_text I value) items
  | _ => true
  end.

(** The embedding of string-keyed pairs into the pairs of a dict. *)
Definition string_keyed (d : list (PyString * PyVal)) : list (PyVal * PyVal) :=
  map (fun '(s, x) => (PStr s, x)) d.

(** The structure of the specification's round-trip example: a mapping
    from a to the list of 1, x and a mapping from b to 2. *)
Definition nested_example : PyVal :=
  PDict [(PText "a", PList [PInt 1; PText "x"; PDict [(PText "b", PInt 2)]])].

(** A keyword of the given signature that returns None. *)
Definition with_signature (method : bool) (spec : ArgSpec) : Keyword :=
  {| ismethod := method; getargspec := spec;
     call := fun _ _ => {| printed_out := []; printed_err := [];
                           result := Ok PNone |} |}.

(** A module exposing the functions [a()] and [b(x, y=1)]. *)
Definition library_a_b : RemoteLibrary.t :=
  {| RemoteLibrary._library :=
       [ ("a", Callable (with_signature false
                           {| args := []; varargs := None; keywords := None;
                              defaults := None |}));
         ("b", Callable (with_signature false
                           {| args := ["x"; "y"]; varargs := None;
                              keywords := None; defaults := Some [PInt 1] |})) ];
     RemoteLibrary._stop_remote_server := None |}.

(** An instance of a class that defines [def kw(self=None, x=1)]. *)
Definition library_defaulted_receiver : RemoteLibrary.t :=
  {| RemoteLibrary._library :=
       [ ("kw", Callable (with_signature true
                            {| args := ["self"; "x"]; varargs := None;
                               keywords := None;
                               defaults := Some [PNone; PInt 1] |})) ];
     RemoteLibrary._stop_remote_server := None |}.

(** The name starts with an underscore. *)
Definition starts_with_underscore (name : string) : Prop :=
  exists rest, name = String "_" rest.

(** The library has no enumeration method of its own, under either name. *)
Definition no_enumerator (self : RemoteLibrary.t) : Prop :=
  forall name kw,
    name = "get_keyword_names" \/ name = "getKeywordNames" ->
    RemoteLibrary.getattr (RemoteLibrary._library self) name <> Some (Callable kw).

(** A library with a function [_hidden] and an enumeration method of its
    own that lists it. *)
Definition library_listing_hidden : RemoteLibrary.t :=
  {| RemoteLibrary._library :=
       [ ("_hidden", Callable (returning (PInt 1)));
         ("get_keyword_names", Callable (returning (PList [PText "_hidden"]))) ];
     RemoteLibrary._stop_remote_server := None |}.

(** A library with a function [_hidden] and a function [visible]. *)
Definition library_with_hidden : RemoteLibrary.t :=
  {| RemoteLibrary._library :=
       [ ("_hidden", Callable (returning (PInt 1)));
         ("visible", Callable (returning (PInt 2))) ];
     RemoteLibrary._stop_remote_server := None |}.

(** The exceptions the encoder itself raises. *)
Definition encoder_error (e : PyExc) : Prop :=
  exists cls message,
    e = plain_exc cls message /\
    (cls = ValueError \/ cls = TypeError \/ cls = UnicodeDecodeError).

(** ** Further observations *)

(** A transport value: text and numbers, booleans, opaque binary blobs,
    lists of transport values and mappings from strings to transport
    values, every string in it binary-safe. *)
Fixpoint transport_value (I : Interp) (v : PyVal) : bool :=
  match v with
  | PBool _ | PInt _ | PFloat _ | PBinary _ => true
  | PStr s => negb (KeywordResult._contains_binary I s)
  | PList items => forallb (transport_value I) items
  | PDict items =>
      forallb (fun '(key, value) =>
                 match key with
                 | PStr s => negb (KeywordResult._contains_binary I s)
                 | _ => false
                 end && transport_value I value) items
  | PNone | PTuple _ | PObject _ => false
  end.


(** The keys an outcome can hold. *)
Definition outcome_keys : list string :=
  ["status"; "return"; "error"; "traceback"; "continuable"; "fatal"; "output"].

(** An exception of a user-defined class, with both ROBOT_ failure
    markers set and one frame of its own in the traceback. *)
Definition marked_error : PyExc :=
  {| exc_type := UserClass "MyError" true; exc_unicode := Some (u "bad");
     exc_args := [PText "bad"];
     ROBOT_SUPPRESS_NAME := false; ROBOT_CONTINUE_ON_FAILURE := true;
     ROBOT_EXIT_ON_FAILURE := true;
     exc_frames := [u "  File lib.py, line 3, in kw" ++ [10]] |}.

(** The pairs of a dict under construction: string keys, binary-safe,
    and transport values. *)
Definition transport_pairs (I : Interp) (d : list (PyVal * PyVal)) : Prop :=
  transport_value I (PDict d) = true.

(** The name does not start with an underscore. *)
Definition public (name : string) : bool :=
  match name with
  | String c _ => negb (Ascii.eqb c "_")
  | EmptyString => false
  end.

(** The attribute of that name is a function or a method. *)
Definition callable_attribute (self : RemoteLibrary.t) (name : string) : bool :=
  match RemoteLibrary.getattr (RemoteLibrary._library self) name with
  | Some (Callable _) => true
  | _ => false
  end.

(** The public function and method attributes of the library, in the
    order [dir] gives them. *)
Definition public_callables (self : RemoteLibrary.t) : list string :=
  List.filter (fun name => public name && callable_attribute self name)
    (map fst (RemoteLibrary._library self)).

(** The library's own enumeration method: [get_keyword_names] when it is
    a function or method; otherwise [getKeywordNames], consulted only
    when the attribute [get_keyword_names] is missing or false. *)
Definition own_enumerator (self : RemoteLibrary.t) (kw : Keyword) : Prop :=
  RemoteLibrary.getattr (RemoteLibrary._library self) "get_keyword_names"
  = Some (Callable kw) \/
  (RemoteLibrary.attr_truthy
     (RemoteLibrary.getattr (RemoteLibrary._library self) "get_keyword_names")
   = false /\
   RemoteLibrary.getattr (RemoteLibrary._library self) "getKeywordNames"
   = Some (Callable kw)).

(** A library with two enumeration methods; the second is never asked. *)
Definition library_two_enumerators : RemoteLibrary.t :=
  {| RemoteLibrary._library :=
       [ ("getKeywordNames", Callable (returning (PList [PText "ignored"])));
         ("get_keyword_names", Callable (returning (PTuple [PText "kw"]))) ];
     RemoteLibrary._stop_remote_server := Some (returning (PBool true)) |}.

(** A library that has a function called [stop_remote_server] of its own
    and is hosted without a stop capability. *)
Definition library_own_stop : RemoteLibrary.t :=
  {| RemoteLibrary._library :=
       [ ("stop_remote_server", Callable (returning (PInt 1))) ];
     RemoteLibrary._stop_remote_server := None |}.


(** ** The command line of the module *)

(** [needle in hay], on text. *)
Fixpoint contains (hay needle : text) : bool :=
  startswith hay needle ||
  match hay with
  | [] => false
  | _ :: rest => contains rest needle
  end.

(** The two actions of the command line: the functions [stop] and [test]. *)
Inductive Action := stop | test.

(** [actions = {'stop': stop, 'test': test}], as a lookup. *)
Definition actions (name : text) : option Action :=
  if bool_decide (name = u "stop") then Some stop
  else if bool_decide (name = u "test") then Some test
  else None.

(** What [sys.exit(usage)] raises. *)
Definition usage_exit : PyExc :=
  plain_exc SystemExit (u "Usage:  python -m robotremoteserver test|stop [uri]").

(** [parse_args(args)].  The three tests of the guard lead to the same
    exit; the lookup [actions[args[0]]] of the last line is made with the
    membership test. *)
Definition parse_args (args : list text) : Exc (Action * text) :=
  match args with
  | [] => Raise usage_exit
  | first :: _ =>
      if (2 <? length args)%nat then Raise usage_exit
      else
        match actions first with
        | None => Raise usage_exit
        | Some action =>
            let uri := match args with
                       | [_; second] => second
                       | _ => u "http://127.0.0.1:8270"
                       end in
            let uri := if negb (contains uri (u "://")) then u "http://" ++ uri
                       else uri in
            Ok (action, uri)
        end
  end.

(** ** RobotRemoteServer *)

(** The process the server runs in: the streams, the log lines the server
    itself has written to the original standard output, and the files it
    has written (path and content).  What other code writes to the
    original streams is not tracked. *)
Record Process := {
  world : World;
  console : text;
  files : list (text * text)
}.

(** [errno.EINTR] *)
Definition EINTR : Z := 4.

(** [level.upper()], for the ASCII levels the server logs with. *)
Definition upper (s : text) : text :=
  map (fun c => if (97 <=? c) && (c <=? 122) then c - 32 else c) s.

(** One call a client makes: the five functions [_register_functions]
    registers. *)
Inductive Call :=
| call_get_keyword_names
| call_run_keyword (name : string) (args : list PyVal)
    (kwargs : option (list (string * PyVal)))
| call_get_keyword_arguments (name : string)
| call_get_keyword_documentation (name : string)
| call_stop_remote_server.

(** What one turn of the serving loop meets: [handle_request] serves a
    call, returns after its timeout, or raises OSError / select.error
    with the given errno; or one of the signals SIGINT, SIGTERM, SIGHUP
    is delivered. *)
Inductive Event :=
| Request (c : Call)
| Timeout
| Interrupted (errno : Z)
| Signal.

(** How [serve_forever] ends on a finite run of events: the loop was left
    because the server is shut down; the events ran out while it was
    still serving; or an error other than EINTR was raised again. *)
Inductive Served :=
| Stopped
| Serving
| Crashed (errno : Z).

Module RobotRemoteServer.

(** The fields of the server: the address the socket is bound to, the two
    flags, and the hosted library.  [call_mismatch] is the TypeError the
    interpreter raises when the bound method [stop_remote_server], which
    takes no argument, is called with some. *)
Record t := {
  server_address : text * Z;
  _allow_stop : bool;
  _shutdown : bool;
  library : list (string * Attr);
  call_mismatch : list PyVal -> list (string * PyVal) -> PyExc
}.

(** [stream.write(msg + '\n'); stream.flush()].  (A stream that refuses the
    write, such as a closed StringIO, is not modelled: the server binds
    [sys.stdout] to open streams only.) *)
Definition _write_to_stream (p : Process) (msg : text) (stream : Stream) : Process :=
  match stream with
  | sys___stdout__ =>
      {| world := world p; console := console p ++ msg ++ [10];
         files := files p |}
  | _ =>
      {| world := write (world p) stream (msg ++ [10]); console := console p;
         files := files p |}
  end.

Definition _log (p : Process) (msg : text) (level : option text) : Process :=
  let msg := match level with
             | Some ((_ :: _) as level) => u "*" ++ upper level ++ u "* " ++ msg
             | _ => msg
             end in
  let p := _write_to_stream p msg (sys_stdout (world p)) in
  match sys_stdout (world p) with
  | sys___stdout__ => p
  | _ => _write_to_stream p msg sys___stdout__
  end.

(** ['Robot Framework remote server at %s:%s ' % self.server_address] *)
Definition prefix (self : t) : text :=
  u "Robot Framework remote server at " ++ fst (server_address self) ++
  u ":" ++ decimal (snd (server_address self)) ++ u " ".

Definition stop_remote_server (self : t) (p : Process) : t * Process * bool :=
  if _allow_stop self then
    let p := _log p (prefix self ++ u "stopping.") None in
    ({| server_address := server_address self; _allow_stop := _allow_stop self;
        _shutdown := true; library := library self;
        call_mismatch := call_mismatch self |}, p, true)
  else
    let p := _log p (prefix self ++ u "does not allow stopping.")
               (Some (u "WARN")) in
    (self, p, _shutdown self).

(** The handler [stop_with_signal] of [_register_signal_handlers]. *)
Definition stop_with_signal (self : t) (p : Process) : t * Process :=
  let self := {| server_address := server_address self; _allow_stop := true;
                 _shutdown := _shutdown self; library := library self;
                 call_mismatch := call_mismatch self |} in
  let '(self, p, _) := stop_remote_server self p in
  (self, p).

Definition _announce_start (self : t) (p : Process) (port_file : option text)
  : Process :=
  let '(host, port) := server_address self in
  let p := _log p (u "Robot Framework remote server at " ++ host ++ u ":" ++
                   decimal port ++ u " starting.") None in
  match port_file with
  | Some ((_ :: _) as port_file) =>
      {| world := world p; console := console p;
         files := files p ++ [(port_file, decimal port)] |}
  | _ => p
  end.

(** A process in which output capture is engaged, with nothing printed
    yet: the place a keyword runs in. *)
Definition capturing : Process :=
  {| world := {| sys_stdout := StringIO_at 0; sys_stderr := StringIO_at 1;
                 heap := [ {| buffer := []; closed := false |};
                           {| buffer := []; closed := false |} ] |};
     console := []; files := [] |}.

(** What a call printed to a captured stream. *)
Definition captured (p : Process) (addr : nat) : text :=
  match heap (world p) !! addr with
  | Some io => buffer io
  | None => []
  end.

(** The bound method [self.stop_remote_server] as the keyword the library
    is given: called without argument it prints and returns what
    [stop_remote_server] does under capture; called with any, the call
    itself fails. *)
Definition stop_keyword (self : t) : Keyword :=
  {| ismethod := true;
     getargspec := {| args := ["self"]; varargs := None; keywords := None;
                      defaults := None |};
     call := fun args kwargs =>
       match args, kwargs with
       | [], [] =>
           let '(_, p, stops) := stop_remote_server self capturing in
           {| printed_out := captured p 0; printed_err := captured p 1;
              result := Ok (PBool stops) |}
       | _, _ =>
           {| printed_out := []; printed_err := [];
              result := Raise (call_mismatch self args kwargs) |}
       end |}.

(** [self._library = RemoteLibrary(library, self.stop_remote_server)] *)
Definition _library (self : t) : RemoteLibrary.t :=
  {| RemoteLibrary._library := library self;
     RemoteLibrary._stop_remote_server := Some (stop_keyword self) |}.

Definition get_keyword_names (I : Interp) (self : t) : Exc PyVal :=
  RemoteLibrary.get_keyword_names I (_library self).

Definition get_keyword_arguments (I : Interp) (self : t) (name : string)
  : Exc (list PyVal) :=
  RemoteLibrary.get_keyword_arguments I (_library self) name.

(** [run_keyword]: the call is the library's; when it reaches the body of
    the stop capability (the reserved name, no argument), the server is
    left as [stop_remote_server] leaves it and the log line, written
    under capture, has reached the console as well. *)
Definition run_keyword (I : Interp) (self : t) (name : string)
    (args : list PyVal) (kwargs : option (list (string * PyVal))) (p : Process)
  : t * Process * Exc (gmap string PyVal) :=
  let '(w, outcome) :=
    RemoteLibrary.run_keyword I (_library self) name args kwargs (world p) in
  match String.eqb name "stop_remote_server", args, default [] kwargs with
  | true, [], [] =>
      let '(self', logged, _) := stop_remote_server self capturing in
      (self', {| world := w; console := console p ++ console logged;
                 files := files p |}, outcome)
  | _, _, _ =>
      (self, {| world := w; console := console p; files := files p |}, outcome)
  end.

(** One call served by [handle_request].  The dispatcher of the XML-RPC
    server turns whatever a function raises into a fault for the client,
    so that serving a call never raises here; the calls that only read the
    catalog leave the server as it is. *)
Definition serve (I : Interp) (self : t) (c : Call) (p : Process) : t * Process :=
  match c with
  | call_run_keyword name args kwargs =>
      let '(self, p, _) := run_keyword I self name args kwargs p in (self, p)
  | call_stop_remote_server =>
      let '(self, p, _) := stop_remote_server self p in (self, p)
  | call_get_keyword_names
  | call_get_keyword_arguments _
  | call_get_keyword_documentation _ => (self, p)
  end.

(** [serve_forever], over the events its turns meet. *)
Fixpoint serve_forever (I : Interp) (events : list Event) (self : t) (p : Process)
  : t * Process * Served * list Event :=
  if _shutdown self then (self, p, Stopped, events)
  else
    match events with
    | [] => (self, p, Serving, [])
    | Request c :: rest =>
        let '(self, p) := serve I self c p in serve_forever I rest self p
    | Timeout :: rest => serve_forever I rest self p
    | Interrupted errno :: rest =>
        if (errno =? EINTR)%Z then serve_forever I rest self p
        else (self, p, Crashed errno, rest)
    | Signal :: rest =>
        let '(self, p) := stop_with_signal self p in serve_forever I rest self p
    end.

(** [__init__], for the address the socket was bound to. *)
Definition __init__ (I : Interp) (library : list (string * Attr))
    (address : text * Z) (port_file : option text) (allow_stop : bool)
    (mismatch : list PyVal -> list (string * PyVal) -> PyExc)
    (events : list Event) (p : Process)
  : t * Process * Served * list Event :=
  let self := {| server_address := address; _allow_stop := allow_stop;
                 _shutdown := false; library := library;
                 call_mismatch := mismatch |} in
  let p := _announce_start self p port_file in
  serve_forever I events self p.

End RobotRemoteServer.

(** A process outside any invocation, with the original streams bound. *)
Definition idle : Process :=
  {| world := {| sys_stdout := sys___stdout__; sys_stderr := sys___stderr__;
                 heap := [] |};
     console := []; files := [] |}.

(** A server on 127.0.0.1:8270 hosting the functions [a] and [b]. *)
Definition server_a_b (allow_stop : bool) : RobotRemoteServer.t :=
  {| RobotRemoteServer.server_address := (u "127.0.0.1", 8270%Z);
     RobotRemoteServer._allow_stop := allow_stop;
     RobotRemoteServer._shutdown := false;
     RobotRemoteServer.library := RemoteLibrary._library library_a_b;
     RobotRemoteServer.call_mismatch :=
       fun _ _ => plain_exc TypeError (u "stop_remote_server() takes no arguments") |}.

(** A turn that changes nothing: a timeout, an interruption by EINTR, or
    a call that only reads the catalog. *)
Definition idle_event (ev : Event) : bool :=
  match ev with
  | Timeout => true
  | Interrupted errno => (errno =? EINTR)%Z
  | Request call_get_keyword_names
  | Request (call_get_keyword_arguments _)
  | Request (call_get_keyword_documentation _) => true
  | _ => false
  end.

(** A signal is delivered in this turn. *)
Definition is_Signal (ev : Event) : bool :=
  match ev with Signal => true | _ => false end.

(** The turn raises an error other than EINTR. *)
Definition is_crash (ev : Event) : bool :=
  match ev with
  | Interrupted errno => negb (errno =? EINTR)%Z
  | _ => false
  end.

(** The line a stop request logs. *)
Definition stop_line (self : RobotRemoteServer.t) : text :=
  if RobotRemoteServer._allow_stop self
  then RobotRemoteServer.prefix self ++ u "stopping." ++ [10]
  else u "*WARN* " ++ RobotRemoteServer.prefix self ++
       u "does not allow stopping." ++ [10].


(** The server with its two flags set. *)
Definition with_flags (self : RobotRemoteServer.t) (allow_stop shutdown : bool)
  : RobotRemoteServer.t :=
  {| RobotRemoteServer.server_address := RobotRemoteServer.server_address self;
     RobotRemoteServer._allow_stop := allow_stop;
     RobotRemoteServer._shutdown := shutdown;
     RobotRemoteServer.library := RobotRemoteServer.library self;
     RobotRemoteServer.call_mismatch := RobotRemoteServer.call_mismatch self |}.

(** The server after a stop request: shut down when stopping is allowed,
    as it was otherwise. *)
Definition after_stop (self : RobotRemoteServer.t) : RobotRemoteServer.t :=
  with_flags self (RobotRemoteServer._allow_stop self)
    (RobotRemoteServer._allow_stop self || RobotRemoteServer._shutdown self).

(** The line [_log] writes for a message and a level. *)
Definition log_line (msg : text) (level : option text) : text :=
  match level with
  | Some ((_ :: _) as level) =>
      u "*" ++ upper level ++ u "* " ++ msg ++ [10]
  | _ => msg ++ [10]
  end.

(** A turn that stops the server: a signal; or, when stopping is allowed,
    the call of [stop_remote_server], directly or as a keyword without
    argument. *)
Definition stops (self : RobotRemoteServer.t) (ev : Event) : bool :=
  match ev with
  | Signal => true
  | Request call_stop_remote_server => RobotRemoteServer._allow_stop self
  | Request (call_run_keyword name [] kwargs) =>
      String.eqb name "stop_remote_server" &&
      match default [] kwargs with [] => true | _ => false end &&
      RobotRemoteServer._allow_stop self
  | _ => false
  end.
(** * Properties *)

(** ** Strings *)

Lemma startswith_spec (s p : text) :
  startswith s p = true <-> exists rest, s = p ++ rest.
Proof.
  revert s. induction p as [|c p IH]; intros s; simpl.
  - split; [intros _; eauto | intros _; destruct s; reflexivity].
  - destruct s as [|d s].
    + split; [discriminate | intros [r Hr]; discriminate].
    + simpl. rewrite andb_true_iff, N.eqb_eq, IH. split.
      * intros [-> [r ->]]. eauto.
      * intros [r Hr]. injection Hr as -> ->. eauto.
Qed.

Lemma endswith_spec (s x : text) :
  endswith s x = true <-> exists front, s = front ++ x.
Proof.
  unfold endswith. rewrite startswith_spec. split.
  - intros [r Hr]. exists (rev r).
    rewrite <- (rev_involutive s), Hr, rev_app_distr, rev_involutive. reflexivity.
  - intros [f ->]. exists (rev f). apply rev_app_distr.
Qed.

Lemma existsb_startswith (s : text) (ms : list text) :
  existsb (startswith s) ms = true <->
  exists m rest, In m ms /\ s = m ++ rest.
Proof.
  rewrite existsb_exists. split.
  - intros [m [Hin H]]. apply startswith_spec in H as [r ->]. eauto.
  - intros [m [r [Hin ->]]]. exists m. split; [assumption|].
    apply startswith_spec. eauto.
Qed.

(** ** Output capture *)

Lemma lookup_fresh_out (h : list StringIO) (x y : StringIO) :
  (h ++ [x; y]) !! length h = Some x.
Proof. rewrite lookup_app_r by lia. rewrite Nat.sub_diag. reflexivity. Qed.

Lemma lookup_fresh_err (h : list StringIO) (x y : StringIO) :
  (h ++ [x; y]) !! S (length h) = Some y.
Proof.
  rewrite lookup_app_r by lia.
  replace (S (length h) - length h)%nat with 1%nat by lia. reflexivity.
Qed.

Lemma insert_fresh_out (h : list StringIO) (x y z : StringIO) :
  <[length h := z]> (h ++ [x; y]) = h ++ [z; y].
Proof.
  rewrite insert_app_r_alt by lia. rewrite Nat.sub_diag. reflexivity.
Qed.

Lemma insert_fresh_err (h : list StringIO) (x y z : StringIO) :
  <[S (length h) := z]> (h ++ [x; y]) = h ++ [x; z].
Proof.
  rewrite insert_app_r_alt by lia.
  replace (S (length h) - length h)%nat with 1%nat by lia. reflexivity.
Qed.

Lemma run_keyword_eq (I : Interp) (keyword : option Keyword) (args : list PyVal)
    (kwargs : option (list (string * PyVal))) (w : World) :
  KeywordRunner.run_keyword I keyword args kwargs w =
  let r := the_run keyword args kwargs in
  (restored w r,
   match KeywordResult.set_output I
           (KeywordRunner.merge (printed_out r) (printed_err r))
           (fst (KeywordRunner.attempt I (result r))) with
   | Raise e => Raise e
   | Ok data =>
       match snd (KeywordRunner.attempt I (result r)) with
       | Some e => Raise e
       | None => Ok data
       end
   end).
Proof.
  unfold KeywordRunner.run_keyword, the_run.
  destruct (KeywordRunner._handle_binary_args args (default [] kwargs)) as [a k].
  destruct keyword as [kw|]; cbn [KeywordRunner.invoke].
  - set (r := call kw a k).
    unfold KeywordRunner._intercept_std_streams, write; cbn [sys_stdout sys_stderr heap].
    rewrite lookup_fresh_out. cbn [closed buffer sys_stdout sys_stderr heap].
    rewrite insert_fresh_out, lookup_fresh_err. cbn [closed buffer].
    rewrite insert_fresh_err.
    destruct (KeywordRunner.attempt I (result r)) as [data fl].
    unfold KeywordRunner._restore_std_streams, getvalue; cbn [sys_stdout sys_stderr heap].
    rewrite lookup_fresh_out, lookup_fresh_err. cbn [closed buffer fold_left close sys_stdout sys_stderr heap].
    rewrite lookup_fresh_out. cbn [closed buffer fold_left close sys_stdout sys_stderr heap].
    rewrite insert_fresh_out, lookup_fresh_err. cbn [closed buffer].
    rewrite insert_fresh_err. cbn [app fst snd]. unfold restored.
    destruct (KeywordResult.set_output I _ data); [destruct fl|]; reflexivity.
  - unfold KeywordRunner._intercept_std_streams.
    destruct (KeywordRunner.attempt I _) as [data fl].
    unfold KeywordRunner._restore_std_streams, getvalue; cbn [sys_stdout sys_stderr heap].
    rewrite lookup_fresh_out, lookup_fresh_err. cbn [closed buffer fold_left close sys_stdout sys_stderr heap].
    rewrite lookup_fresh_out. cbn [closed buffer fold_left close sys_stdout sys_stderr heap].
    rewrite insert_fresh_out, lookup_fresh_err. cbn [closed buffer].
    rewrite insert_fresh_err. cbn [app fst snd result printed_out printed_err]. unfold restored.
    cbn [result printed_out printed_err].
    destruct (KeywordResult.set_output I _ data); [destruct fl|]; reflexivity.
Qed.

Lemma merge_as_specified (stdout stderr : text) :
  merged_as_specified stdout stderr (KeywordRunner.merge stdout stderr).
Proof.
  unfold merged_as_specified, KeywordRunner.merge.
  destruct stdout as [|c so]; [|destruct stderr as [|d se]].
  - exists [], stderr. repeat split; try tauto; intros; try congruence.
  - exists (c :: so), []. repeat split; try tauto; intros; try congruence.
  - set (so' := c :: so). set (se' := d :: se).
    fold KeywordRunner.markers.
    exists (if negb (endswith so' [10]) then so' ++ [10] else so'),
           (if negb (existsb (startswith se') KeywordRunner.markers)
            then u "*INFO* " ++ se' else se').
    split; [reflexivity|].
    split; [intros H; discriminate H|].
    split; [intros [H|H]; discriminate H|].
    intros _ _. repeat split.
    + intros H. apply endswith_spec in H. rewrite H. reflexivity.
    + intros H. destruct (endswith so' [10]) eqn:E; [|reflexivity].
      apply endswith_spec in E. contradiction.
    + intros H. apply existsb_startswith in H. rewrite H. reflexivity.
    + intros H.
      destruct (existsb (startswith se') KeywordRunner.markers) eqn:E; [|reflexivity].
      apply existsb_startswith in E. contradiction.
Qed.

(** C4: ending output capture returns the standard-output text followed by
    the standard-error text (the empty text when both buffers are empty);
    only when both are non-empty, the first part is made to end with a line
    break and the second is prefixed with the marker *INFO* unless it
    already starts with one of *TRACE*, *DEBUG*, *INFO*, *HTML*, *WARN*,
    *ERROR*. *)
Theorem C4_restore_std_streams_merges (w : World) (a b : nat) (stdout stderr : text)
    (Hout : sys_stdout w = StringIO_at a)
    (Herr : sys_stderr w = StringIO_at b)
    (Ha : heap w !! a = Some {| buffer := stdout; closed := false |})
    (Hb : heap w !! b = Some {| buffer := stderr; closed := false |}) :
  exists r,
    snd (KeywordRunner._restore_std_streams w) = Ok r /\
    merged_as_specified stdout stderr r.
Proof.
  exists (KeywordRunner.merge stdout stderr). split.
  - unfold KeywordRunner._restore_std_streams, getvalue.
    rewrite Hout, Herr, Ha, Hb. reflexivity.
  - apply merge_as_specified.
Qed.

Lemma C4_restore_std_streams_merges_witness :
  snd (KeywordRunner._restore_std_streams capturing_world)
  = Ok (u "done" ++ [10] ++ u "*INFO* careful") /\
  exists r,
    snd (KeywordRunner._restore_std_streams capturing_world) = Ok r /\
    merged_as_specified (u "done") (u "careful") r.
Proof.
  split; [reflexivity|].
  apply (C4_restore_std_streams_merges capturing_world 0 1 (u "done") (u "careful"));
    reflexivity.
Defined.


(** A host that had replaced [sys.stdout] does not get its stream back:
    after the invocation the original one is bound. *)
Example host_stream_not_reinstalled :
  sys_stdout hosted_world = OtherStream 0 /\
  sys_stdout (fst (KeywordRunner.run_keyword cpython3 (Some (returning PNone))
                     [] None hosted_world)) = sys___stdout__.
Proof. split; reflexivity. Qed.

(** ** Binary safety *)

Lemma BINARY_class_spec (c : N) : BINARY_class c = true <-> control_char c.
Proof.
  unfold BINARY_class, control_char.
  rewrite !orb_true_iff, andb_true_iff, !N.leb_le, !N.eqb_eq. tauto.
Qed.

Lemma NON_ASCII_class_spec (x : byte) :
  NON_ASCII_class (Byte.to_N x) = true <-> 128 <= Byte.to_N x.
Proof.
  unfold NON_ASCII_class. rewrite andb_true_iff, !N.leb_le.
  pose proof (Byte.to_N_bounded x). lia.
Qed.

Lemma BINARY_search_spec (t : text) :
  BINARY_search t = true <-> exists c, In c t /\ control_char c.
Proof.
  unfold BINARY_search. rewrite existsb_exists.
  split; intros [c [Hin H]]; exists c; split; try assumption;
    apply BINARY_class_spec; assumption.
Qed.

Lemma contains_binary_py2 (I : Interp) (s : PyString) :
  PY3 I = false ->
  (KeywordResult._contains_binary I s = true <-> unsafe_as_specified s).
Proof.
  intros H2. unfold KeywordResult._contains_binary. rewrite H2.
  destruct s as [t|b]; cbn [unsafe_as_specified].
  - apply BINARY_search_spec.
  - unfold NON_ASCII_search, BINARY_search_bytes.
    rewrite orb_true_iff, !existsb_exists.
    split; (intros [[x [Hin H]]|[x [Hin H]]]; [left|right]; exists x; split;
            try assumption).
    + apply NON_ASCII_class_spec; assumption.
    + apply BINARY_class_spec; assumption.
    + apply NON_ASCII_class_spec; assumption.
    + apply BINARY_class_spec; assumption.
Qed.

Lemma contains_binary_py3 (I : Interp) (s : PyString) :
  PY3 I = true ->
  (KeywordResult._contains_binary I s = true <->
   (exists b, s = Bytes b) \/ (exists t, s = Text t /\ unsafe_as_specified s)).
Proof.
  intros H3. unfold KeywordResult._contains_binary. rewrite H3.
  destruct s as [t|b].
  - rewrite BINARY_search_spec. cbn [unsafe_as_specified]. split.
    + intros H. right. exists t. split; [reflexivity | assumption].
    + intros [[b Hb]|[t' [_ H]]]; [discriminate | assumption].
  - split; [intros _; left; eauto | reflexivity].
Qed.

Lemma encode_ascii_None (t : text) :
  encode_ascii t = None <-> exists c, In c t /\ 128 <= c.
Proof.
  induction t as [|c t IH]; cbn [encode_ascii].
  - split; [discriminate | intros [c [[] _]]].
  - destruct (c <? 128) eqn:E.
    + apply N.ltb_lt in E.
      destruct (Byte.of_N c) as [x|] eqn:Ex.
      * destruct (encode_ascii t) as [r|].
        -- split; [discriminate|].
           intros [d [[<-|Hin] Hd]]; [lia|].
           destruct IH as [_ IH]. discriminate IH. eauto.
        -- split; [|reflexivity]. intros _.
           destruct IH as [IH _]. destruct (IH eq_refl) as [d [Hin Hd]].
           exists d. split; [right; assumption | assumption].
      * exfalso. apply Byte.of_N_None_iff in Ex. lia.
    + apply N.ltb_ge in E. split; [|reflexivity].
      intros _. exists c. split; [left; reflexivity | assumption].
Qed.

Lemma encode_ascii_Some (t : text) (b : bytes) :
  encode_ascii t = Some b -> decode_latin1 b = t.
Proof.
  revert b. induction t as [|c t IH]; cbn [encode_ascii]; intros b H.
  - injection H as <-. reflexivity.
  - destruct (c <? 128); [|discriminate].
    destruct (Byte.of_N c) as [x|] eqn:Ex; [|discriminate].
    destruct (encode_ascii t) as [r|]; [|discriminate].
    injection H as <-. cbn [decode_latin1 map].
    apply Byte.to_of_N in Ex. rewrite Ex. f_equal. apply IH. reflexivity.
Qed.

(** C3 (amended): under Python 2 a text or byte value is classified
    binary-unsafe exactly when it is raw bytes with non-ASCII content or
    holds a control character outside tab, line feed and carriage return;
    under Python 3 every bytes value is unsafe, and a text exactly when it
    holds such a control character.  A safe value is passed through.  An
    unsafe value is ASCII-encoded if it was text and wrapped as a Binary
    (which only Python 3 on IronPython refuses); if the encoding fails the
    encoder raises ValueError, Cannot represent ... as binary. *)
Theorem C3_binary_classification_and_wrapping (I : Interp) (s : PyString) :
  (KeywordResult._contains_binary I s = true <->
     if PY3 I
     then (exists b, s = Bytes b) \/ (exists t, s = Text t /\ unsafe_as_specified s)
     else unsafe_as_specified s) /\
  (KeywordResult._contains_binary I s = false ->
     KeywordResult._handle_binary_result I s = Ok (PStr s)) /\
  (KeywordResult._contains_binary I s = true ->
     match s with
     | Bytes b =>
         KeywordResult._handle_binary_result I s = Binary I (platform_cli I) b
     | Text t =>
         (forall b, encode_ascii t = Some b ->
            decode_latin1 b = t /\
            KeywordResult._handle_binary_result I s
            = Binary I (platform_cli I) b) /\
         (encode_ascii t = None ->
            (exists c, In c t /\ 128 <= c) /\
            KeywordResult._handle_binary_result I s =
              Raise (plain_exc ValueError
                       (u "Cannot represent " ++ repr_text I t ++ u " as binary.")))
     end) /\
  (forall b, platform_cli I && PY3 I = false ->
             Binary I (platform_cli I) b = Ok (PBinary b)).
Proof.
  split; [|split; [|split]].
  - destruct (PY3 I) eqn:E.
    + apply contains_binary_py3; assumption.
    + apply contains_binary_py2; assumption.
  - intros H. unfold KeywordResult._handle_binary_result. rewrite H. reflexivity.
  - intros H. unfold KeywordResult._handle_binary_result. rewrite H.
    destruct s as [t|b]; cbn [negb].
    + split.
      * intros b Hb. rewrite Hb. split; [apply encode_ascii_Some; assumption|].
        reflexivity.
      * intros Hn. rewrite Hn. split; [apply encode_ascii_None; assumption|].
        reflexivity.
    + reflexivity.
  - intros b H. unfold Binary. rewrite H. reflexivity.
Qed.

(** C3, as stated, fails under Python 3: the ASCII bytes abc hold no
    non-ASCII content and no control character, and are classified
    binary-unsafe. *)
Lemma C3_ascii_bytes_unsafe_under_python3 :
  KeywordResult._contains_binary cpython3 (Bytes (b8 "abc")) = true /\
  ~ unsafe_as_specified (Bytes (b8 "abc")) /\
  KeywordResult._handle_binary_result cpython3 (Bytes (b8 "abc"))
  = Ok (PBinary (b8 "abc")).
Proof.
  split; [reflexivity|]. split; [|reflexivity].
  cbn [unsafe_as_specified]. unfold control_char.
  intros [[x [Hin H]]|[x [Hin H]]];
    cbn in Hin; destruct Hin as [<-|[<-|[<-|[]]]]; vm_compute in H;
    repeat match goal with
           | H : _ \/ _ |- _ => destruct H
           | H : _ /\ _ |- _ => destruct H
           end; try discriminate; try (apply H; reflexivity); try congruence.
Qed.

(** ** Error text *)

Lemma handle_binary_result_shape (I : Interp) (s : PyString) (v : PyVal) :
  KeywordResult._handle_binary_result I s = Ok v ->
  (v = PStr s /\ KeywordResult._contains_binary I s = false) \/
  (exists data, v = PBinary data /\ KeywordResult._contains_binary I s = true /\
     match s with
     | Bytes b => data = b
     | Text t => encode_ascii t = Some data
     end).
Proof.
  unfold KeywordResult._handle_binary_result.
  destruct (KeywordResult._contains_binary I s) eqn:E; cbn [negb].
  - intros H. right.
    destruct s as [t|b].
    + destruct (encode_ascii t) as [d|] eqn:Ed; cbn in H; [|discriminate].
      unfold Binary in H. destruct (platform_cli I && PY3 I); [discriminate|].
      injection H as <-. eauto.
    + cbn in H. unfold Binary in H.
      destruct (platform_cli I && PY3 I); [discriminate|].
      injection H as <-. eauto.
  - intros H. injection H as <-. left. split; reflexivity.
Qed.

Lemma message_truthy (I : Interp) (e : PyExc) (message : PyVal) :
  KeywordResult._get_message_from_exception I e = Ok message ->
  truthy message = false <->
  (message = PStr (Text []) \/ message = PStr (Bytes [])).
Proof.
  unfold KeywordResult._get_message_from_exception. intros H.
  destruct (match exc_unicode e with Some m => Ok (Text m) | None => _ end)
    as [msg|e'] eqn:Em; cbn in H; [|discriminate].
  apply handle_binary_result_shape in H as [[-> _]|[d [-> _]]].
  - destruct msg as [[|c t]|[|c b]]; cbn; split; intros H;
      try tauto; try discriminate;
      destruct H as [H|H]; discriminate H.
  - cbn. split; [discriminate | intros [H|H]; discriminate H].
Qed.

(** C5: the displayed error text is the type name alone when the message
    is empty; the message alone when the type is AssertionError,
    RuntimeError or Exception itself, or the instance carries the
    suppress-name marker; and TypeName: message otherwise.  So a
    RuntimeError with message boom displays as boom, and a custom
    MyError with message bad as MyError: bad. *)
Theorem C5_displayed_error_text (I : Interp) (e : PyExc) (message : PyVal)
    (Hmsg : KeywordResult._get_message_from_exception I e = Ok message) :
  let name := __name__ (exc_type e) in
  let empty := message = PStr (Text []) \/ message = PStr (Bytes []) in
  let generic :=
    exc_type e = AssertionError \/ exc_type e = RuntimeError \/
    exc_type e = Exception in
  (empty -> KeywordResult._get_error_message I e = Ok (PText name)) /\
  (~ empty -> generic \/ ROBOT_SUPPRESS_NAME e = true ->
     KeywordResult._get_error_message I e = Ok message) /\
  (~ empty -> ~ generic -> ROBOT_SUPPRESS_NAME e = false ->
     KeywordResult._get_error_message I e = format_pair I name ": " message /\
     forall m, message = PStr (Text m) ->
       KeywordResult._get_error_message I e
       = Ok (PStr (Text (u name ++ u ": " ++ m)))) /\
  KeywordResult._get_error_message I (plain_exc RuntimeError (u "boom"))
  = Ok (PText "boom") /\
  KeywordResult._get_error_message I (plain_exc (UserClass "MyError" true) (u "bad"))
  = Ok (PText "MyError: bad").
Proof.
  intros name empty generic.
  pose proof (message_truthy I e message Hmsg) as Ht.
  assert (Hg : KeywordResult._generic_exceptions (exc_type e) = true <-> generic).
  { unfold generic. destruct (exc_type e); cbn; split; intros H;
      try reflexivity; try discriminate; try tauto;
      destruct H as [H|[H|H]]; discriminate H. }
  unfold KeywordResult._get_error_message. rewrite Hmsg. cbn [mbind Exc_bind].
  fold name.
  split; [|split; [|split; [|split]]].
  - intros He. apply Ht in He. rewrite He. reflexivity.
  - intros Hne Hgs.
    destruct (truthy message) eqn:E; [|exfalso; apply Hne, Ht; reflexivity].
    cbn [negb].
    destruct (KeywordResult._generic_exceptions (exc_type e)) eqn:G; [reflexivity|].
    destruct Hgs as [Hgen|Hs]; [apply Hg in Hgen; discriminate|].
    rewrite Hs. reflexivity.
  - intros Hne Hng Hs.
    destruct (truthy message) eqn:E; [|exfalso; apply Hne, Ht; reflexivity].
    cbn [negb].
    destruct (KeywordResult._generic_exceptions (exc_type e)) eqn:G;
      [exfalso; apply Hng, Hg; reflexivity|].
    rewrite Hs. cbn [orb]. split; [reflexivity|].
    intros m ->. reflexivity.
  - unfold KeywordResult._get_message_from_exception,
      KeywordResult._handle_binary_result, KeywordResult._contains_binary.
    destruct (PY3 I); reflexivity.
  - unfold KeywordResult._get_message_from_exception,
      KeywordResult._handle_binary_result, KeywordResult._contains_binary.
    destruct (PY3 I); reflexivity.
Qed.

Lemma C5_displayed_error_text_witness :
  KeywordResult._get_message_from_exception cpython3
    (plain_exc (UserClass "MyError" true) (u "bad")) = Ok (PText "bad") /\
  KeywordResult._get_error_message cpython3
    (plain_exc (UserClass "MyError" true) (u "bad")) = Ok (PText "MyError: bad").
Proof.
  split; [reflexivity|].
  apply (C5_displayed_error_text cpython3
           (plain_exc (UserClass "MyError" true) (u "bad")) (PText "bad")
           eq_refl).
Defined.

(** ** Return-value normalization *)

(** Induction on values, through the containers. *)
Lemma PyVal_nested_ind (P : PyVal -> Prop)
    (HNone : P PNone)
    (HBool : forall b, P (PBool b))
    (HInt : forall n, P (PInt n))
    (HFloat : forall f, P (PFloat f))
    (HStr : forall s, P (PStr s))
    (HBinary : forall d, P (PBinary d))
    (HList : forall items, Forall P items -> P (PList items))
    (HTuple : forall items, Forall P items -> P (PTuple items))
    (HDict : forall items,
        Forall (fun kv => P (fst kv) /\ P (snd kv)) items -> P (PDict items))
    (HObject : forall t, P (PObject t)) :
  forall v, P v.
Proof.
  fix IH 1. intros [|b|n|f|s|d|items|items|items|t].
  - exact HNone.
  - apply HBool.
  - apply HInt.
  - apply HFloat.
  - apply HStr.
  - apply HBinary.
  - apply HList. induction items as [|x xs IHxs]; constructor;
      [apply IH | exact IHxs].
  - apply HTuple. induction items as [|x xs IHxs]; constructor;
      [apply IH | exact IHxs].
  - apply HDict. induction items as [|[k x] xs IHxs]; constructor;
      [split; apply IH | exact IHxs].
  - apply HObject.
Qed.

Lemma Exc_map_Raise {A B : Type} (f : A -> Exc B) (xs : list A) (e : PyExc) :
  Exc_map f xs = Raise e -> exists x, In x xs /\ f x = Raise e.
Proof.
  induction xs as [|x xs IH]; cbn; [discriminate|].
  destruct (f x) as [y|e'] eqn:E; cbn.
  - destruct (Exc_map f xs) as [r|e'']; cbn; [discriminate|].
    intros H. injection H as ->. destruct (IH eq_refl) as [z [Hin Hz]]. eauto.
  - intros H. injection H as ->. eauto.
Qed.

Lemma Exc_fold_Raise {A B : Type} (f : B -> A -> Exc B) (xs : list A) (acc : B)
    (e : PyExc) :
  Exc_fold f xs acc = Raise e -> exists a x, In x xs /\ f a x = Raise e.
Proof.
  revert acc. induction xs as [|x xs IH]; intros acc; cbn; [discriminate|].
  destruct (f acc x) as [acc'|e'] eqn:E; cbn.
  - intros H. destruct (IH _ H) as [a [z [Hin Hz]]]. eauto.
  - intros H. injection H as ->. eauto.
Qed.

Lemma handle_binary_result_Raise (I : Interp) (s : PyString) (e : PyExc) :
  KeywordResult._handle_binary_result I s = Raise e -> encoder_error e.
Proof.
  unfold KeywordResult._handle_binary_result, Binary, encoder_error.
  destruct (negb _); [discriminate|].
  destruct s as [t|b]; cbn.
  - destruct (encode_ascii t); cbn.
    + destruct (platform_cli I && PY3 I); [|discriminate].
      intros H. injection H as <-. eauto 6.
    + intros H. injection H as <-. eauto 6.
  - destruct (platform_cli I && PY3 I); [|discriminate].
    intros H. injection H as <-. eauto 6.
Qed.

Lemma decode_ascii_from_Raise (pos : Z) (b : bytes) (e : PyExc) :
  decode_ascii_from pos b = Raise e -> encoder_error e.
Proof.
  revert pos. induction b as [|x b IH]; intros pos; cbn; [discriminate|].
  destruct (Byte.to_N x <? 128).
  - destruct (decode_ascii_from (pos + 1) b) eqn:E; cbn; [discriminate|].
    intros H. injection H as <-. eapply IH, E.
  - intros H. injection H as <-. unfold encoder_error. eauto 6.
Qed.

Lemma unicode_Raise (I : Interp) (v : PyVal) (e : PyExc) :
  unicode I v = Raise e -> encoder_error e.
Proof.
  unfold unicode, decode_ascii.
  destruct v as [|[]| | |[t|b]|d| | | |]; try discriminate;
    destruct (PY3 I); try discriminate; apply decode_ascii_from_Raise.
Qed.

Lemma str_Raise (I : Interp) (v : PyVal) (hb : bool) (e : PyExc) :
  KeywordResult._str I v hb = Raise e -> encoder_error e.
Proof.
  unfold KeywordResult._str.
  destruct v as [| | | |s| | | | |]; try discriminate;
    try (destruct (unicode I _) as [t|e'] eqn:E; cbn;
         [destruct hb; [apply handle_binary_result_Raise | discriminate]
         |intros H; injection H as <-; eapply unicode_Raise, E]).
  cbn. destruct hb; [apply handle_binary_result_Raise | discriminate].
Qed.

Lemma dict_setitem_Raise (I : Interp) d k v (e : PyExc) :
  KeywordResult.dict_setitem I d k v = Raise e -> encoder_error e.
Proof.
  unfold KeywordResult.dict_setitem, unhashable.
  destruct (hashable k); [discriminate|].
  intros H. injection H as <-. unfold encoder_error. eauto 6.
Qed.

Lemma handle_return_value_Raise (I : Interp) (v : PyVal) (e : PyExc) :
  KeywordResult._handle_return_value I v = Raise e -> encoder_error e.
Proof.
  revert e. induction v as [| | | | | |items IH|items IH|items IH|]
    using PyVal_nested_ind; intros e; cbn [KeywordResult._handle_return_value];
    try discriminate;
    try apply str_Raise; try apply handle_binary_result_Raise.
  - destruct (Exc_map _ items) as [l|e'] eqn:E; [discriminate|].
    destruct (is_TypeError (exc_type e')); [apply str_Raise|].
    intros H. injection H as ->.
    apply Exc_map_Raise in E as [x [Hin Hx]].
    rewrite List.Forall_forall in IH. eapply IH; eassumption.
  - destruct (Exc_map _ items) as [l|e'] eqn:E; [discriminate|].
    destruct (is_TypeError (exc_type e')); [apply str_Raise|].
    intros H. injection H as ->.
    apply Exc_map_Raise in E as [x [Hin Hx]].
    rewrite List.Forall_forall in IH. eapply IH; eassumption.
  - destruct (Exc_fold _ items []) as [d|e'] eqn:E; cbn; [discriminate|].
    intros H. injection H as ->.
    apply Exc_fold_Raise in E as [acc [[k x] [Hin Hx]]].
    rewrite List.Forall_forall in IH. specialize (IH _ Hin) as [_ IHx]. cbn in IHx.
    destruct (KeywordResult._str I k true) as [k'|e1] eqn:Ek; cbn in Hx.
    + destruct (KeywordResult._handle_return_value I x) as [x'|e2] eqn:Ex; cbn in Hx.
      * eapply dict_setitem_Raise, Hx.
      * injection Hx as <-. apply IHx. reflexivity.
    + injection Hx as <-. eapply str_Raise, Ek.
Qed.

(** ** Outcome assembly *)

Lemma add_lookup_ne (I : Interp) (key k : string) (value dflt : PyVal)
    (data : gmap string PyVal) :
  key <> k -> KeywordResult._add I key value dflt data !! k = data !! k.
Proof.
  intros H. unfold KeywordResult._add.
  destruct (py_ne I value dflt); [apply lookup_insert_ne; assumption | reflexivity].
Qed.

Lemma add_lookup_eq (I : Interp) (key : string) (value dflt : PyVal)
    (data : gmap string PyVal) :
  KeywordResult._add I key value dflt data !! key
  = if py_ne I value dflt then Some value else data !! key.
Proof.
  unfold KeywordResult._add.
  destruct (py_ne I value dflt); [apply lookup_insert_eq | reflexivity].
Qed.

Lemma set_output_lookup (I : Interp) (output : text) (data data' : gmap string PyVal)
    (k : string) :
  KeywordResult.set_output I output data = Ok data' ->
  k <> "output" -> data' !! k = data !! k.
Proof.
  unfold KeywordResult.set_output. intros H Hk.
  destruct output as [|c t]; [injection H as <-; reflexivity|].
  destruct (KeywordResult._handle_binary_result I _) as [v|e]; cbn in H;
    [|discriminate].
  injection H as <-. apply lookup_insert_ne. congruence.
Qed.

Lemma set_error_lookup (I : Interp) (e : PyExc) (tb : option (list text))
    (data data' : gmap string PyVal) :
  KeywordResult.set_error I e tb data = Ok data' ->
  data' !! "status" = data !! "status" /\
  data' !! "return" = data !! "return" /\
  (tb = None -> data' !! "traceback" = data !! "traceback") /\
  exists m,
    KeywordResult._get_error_message I e = Ok m /\
    data' !! "error" = if py_ne I m (PText "") then Some m else data !! "error".
Proof.
  unfold KeywordResult.set_error. intros H.
  destruct (KeywordResult._get_error_message I e) as [m|e'] eqn:Em; cbn in H;
    [|discriminate].
  injection H as <-.
  split; [|split; [|split]].
  - rewrite !add_lookup_ne by discriminate.
    destruct tb; [rewrite add_lookup_ne by discriminate|];
      apply add_lookup_ne; discriminate.
  - rewrite !add_lookup_ne by discriminate.
    destruct tb; [rewrite add_lookup_ne by discriminate|];
      apply add_lookup_ne; discriminate.
  - intros ->. rewrite !add_lookup_ne by discriminate. reflexivity.
  - exists m. split; [reflexivity|].
    rewrite !add_lookup_ne by discriminate.
    destruct tb; [rewrite add_lookup_ne by discriminate|]; apply add_lookup_eq.
Qed.

Lemma encoder_error_is_Exception (e : PyExc) :
  encoder_error e -> is_Exception (exc_type e) = true.
Proof.
  intros (cls & msg & He & Hcls). subst e.
  destruct Hcls as [-> | [-> | ->]]; reflexivity.
Qed.

Lemma encoder_error_message_shown (I : Interp) (e : PyExc) (m : PyVal) :
  encoder_error e ->
  KeywordResult._get_error_message I e = Ok m ->
  py_ne I m (PText "") = true.
Proof.
  intros (cls & msg & He & Hcls). subst e.
  unfold KeywordResult._get_error_message, KeywordResult._get_message_from_exception.
  cbn [exc_unicode plain_exc exc_type ROBOT_SUPPRESS_NAME mbind Exc_bind].
  destruct (KeywordResult._handle_binary_result I (Text msg)) as [message|e'] eqn:Em;
    cbn [mbind Exc_bind]; [|discriminate].
  apply handle_binary_result_shape in Em.
  assert (Hgen : KeywordResult._generic_exceptions cls = false)
    by (destruct Hcls as [-> | [-> | ->]]; reflexivity).
  rewrite Hgen. cbn [orb].
  destruct (truthy message) eqn:Et; cbn [negb].
  - destruct Em as [[-> _]|[d [-> [_ Hd]]]]; cbn [format_pair].
    + intros H. injection H as <-.
      destruct Hcls as [-> | [-> | ->]]; reflexivity.
    + unfold unicode. destruct (PY3 I) eqn:E3; intros H; injection H as <-.
      * destruct Hcls as [-> | [-> | ->]]; reflexivity.
      * unfold py_ne, py_eq, str_eq. rewrite E3.
        destruct Hcls as [-> | [-> | ->]]; cbn [PText];
          rewrite !andb_false_r || (cbn; rewrite ?andb_false_r; reflexivity);
          reflexivity.
  - intros H. injection H as <-.
    destruct Hcls as [-> | [-> | ->]]; reflexivity.
Qed.

Lemma set_output_representable (I : Interp) (s : text) (data : gmap string PyVal) :
  representable I s ->
  exists data', KeywordResult.set_output I s data = Ok data' /\
                data' !! "status" = data !! "status".
Proof.
  intros [v Hv]. unfold KeywordResult.set_output.
  destruct s as [|c t]; [eauto|].
  rewrite Hv. cbn [mbind Exc_bind]. eexists. split; [reflexivity|].
  apply lookup_insert_ne. discriminate.
Qed.

Lemma set_error_describable (I : Interp) (e : PyExc) (tb : option (list text))
    (data : gmap string PyVal) :
  describable I e ->
  exists data', KeywordResult.set_error I e tb data = Ok data'.
Proof.
  intros [m Hm]. unfold KeywordResult.set_error. rewrite Hm. cbn. eauto.
Qed.

Lemma not_callable_describable (I : Interp) :
  describable I (plain_exc TypeError (u "'NoneType' object is not callable")).
Proof.
  unfold describable, KeywordResult._get_error_message,
    KeywordResult._get_message_from_exception,
    KeywordResult._handle_binary_result, KeywordResult._contains_binary.
  destruct (PY3 I); cbn; eauto.
Qed.

(** A recovered failure whose texts can be represented ends in a FAIL
    outcome: no exception leaves [run_keyword]. *)
Lemma recovered_failure_outcome (I : Interp) (keyword : option Keyword)
    (args : list PyVal) (kwargs : option (list (string * PyVal))) (w : World) :
  let r := the_run keyword args kwargs in
  recovered_failure I keyword (result r) ->
  representable I (KeywordRunner.merge (printed_out r) (printed_err r)) ->
  exists data,
    KeywordRunner.run_keyword I keyword args kwargs w = (restored w r, Ok data) /\
    data !! "status" = Some (PText "FAIL").
Proof.
  intros r Hfail Hrep. rewrite run_keyword_eq. cbv zeta. fold r.
  assert (Hatt : exists d, KeywordRunner.attempt I (result r) = (d, None) /\
                           d !! "status" = Some (PText "FAIL")).
  { assert (Hraise : forall e, is_Exception (exc_type e) = true ->
              describable I e -> result r = Raise e ->
              exists d, KeywordRunner.attempt I (result r) = (d, None) /\
                        d !! "status" = Some (PText "FAIL")).
    { intros e Hex Hd Hr. unfold KeywordRunner.attempt. rewrite Hr, Hex.
      destruct (set_error_describable I e (Some (dispatch_frame :: exc_frames e))
                  KeywordResult.__init__ Hd) as [d Hse].
      rewrite Hse. exists d. split; [reflexivity|].
      apply set_error_lookup in Hse as (Hs & _). rewrite Hs. reflexivity. }
    destruct Hfail as [Hnone|[(e & Hr & Hex & Hd)|(v & e & Hr & Hn & Hd)]].
    - apply (Hraise (plain_exc TypeError (u "'NoneType' object is not callable")));
        [reflexivity | apply not_callable_describable |].
      unfold r, the_run. rewrite Hnone. reflexivity.
    - eapply Hraise; eassumption.
    - unfold KeywordRunner.attempt, KeywordResult.set_return. rewrite Hr, Hn.
      cbn [mbind Exc_bind].
      rewrite (encoder_error_is_Exception _ (handle_return_value_Raise _ _ _ Hn)).
      destruct (set_error_describable I e None KeywordResult.__init__ Hd)
        as [d Hse].
      rewrite Hse. exists d. split; [reflexivity|].
      apply set_error_lookup in Hse as (Hs & _). rewrite Hs. reflexivity. }
  destruct Hatt as (d & -> & Hd). cbn [fst snd].
  destruct (set_output_representable I _ d Hrep) as (d' & -> & Hd').
  exists d'. split; [reflexivity | congruence].
Qed.

(** C1: the status of an outcome starts as FAIL and is PASS only when the
    keyword returned and its return value was normalized; when the
    normalization of a returned value raises, the outcome is FAIL, carries
    the text of the normalization error as its error message and has no
    traceback entry. *)
Theorem C1_status_discipline (I : Interp) (keyword : option Keyword)
    (args : list PyVal) (kwargs : option (list (string * PyVal))) (w : World) :
  let r := the_run keyword args kwargs in
  KeywordResult.__init__ !! "status" = Some (PText "FAIL") /\
  (forall w' data,
     KeywordRunner.run_keyword I keyword args kwargs w = (w', Ok data) ->
     (data !! "status" = Some (PText "PASS") ->
        exists v v',
          result r = Ok v /\ KeywordResult._handle_return_value I v = Ok v') /\
     (forall v e,
        result r = Ok v ->
        KeywordResult._handle_return_value I v = Raise e ->
        data !! "status" = Some (PText "FAIL") /\
        (exists m,
           KeywordResult._get_error_message I e = Ok m /\
           data !! "error" = Some m) /\
        data !! "traceback" = None)) /\
  (forall v e,
     result r = Ok v ->
     KeywordResult._handle_return_value I v = Raise e ->
     describable I e ->
     representable I (KeywordRunner.merge (printed_out r) (printed_err r)) ->
     exists data,
       KeywordRunner.run_keyword I keyword args kwargs w
       = (restored w r, Ok data)).
Proof.
  intros r. split; [reflexivity|]. split.
  2:{ intros v e Hr Hn Hd Hrep.
      destruct (recovered_failure_outcome I keyword args kwargs w) as (d & Hrun & _);
        [right; right; eauto | exact Hrep | eauto]. }
  intros w' data Hrun.
  rewrite run_keyword_eq in Hrun. cbv zeta in Hrun. fold r in Hrun.
  set (returned := result r) in *.
  injection Hrun as _ Hdata.
  destruct (KeywordResult.set_output I _ _) as [d|e0] eqn:Eout; [|discriminate].
  destruct (snd (KeywordRunner.attempt I returned)) as [e0|] eqn:Efl; [discriminate|].
  injection Hdata as ->.
  assert (Hst : data !! "status" = fst (KeywordRunner.attempt I returned) !! "status")
    by (eapply set_output_lookup; [eassumption | discriminate]).
  assert (Her : data !! "error" = fst (KeywordRunner.attempt I returned) !! "error")
    by (eapply set_output_lookup; [eassumption | discriminate]).
  assert (Htb : data !! "traceback" = fst (KeywordRunner.attempt I returned) !! "traceback")
    by (eapply set_output_lookup; [eassumption | discriminate]).
  clear Eout. unfold KeywordRunner.attempt in *.
  destruct returned as [v|e].
  - unfold KeywordResult.set_return in *.
    destruct (KeywordResult._handle_return_value I v) as [v'|e] eqn:Ev;
      cbn [mbind Exc_bind] in *.
    + split; [eauto|]. intros v0 e0 Hv0 He0. injection Hv0 as <-.
      rewrite Ev in He0. discriminate.
    + pose proof (handle_return_value_Raise _ _ _ Ev) as Henc.
      rewrite (encoder_error_is_Exception _ Henc) in *.
      destruct (KeywordResult.set_error I e None KeywordResult.__init__)
        as [d|e1] eqn:Ese; [|discriminate].
      cbn [fst] in *.
      apply set_error_lookup in Ese as (Hs & _ & Ht & m & Hm & Hem).
      rewrite (encoder_error_message_shown _ _ _ Henc Hm) in Hem.
      split.
      * rewrite Hst, Hs. discriminate.
      * intros v0 e0 Hv0 He0. injection Hv0 as <-. rewrite Ev in He0.
        injection He0 as <-.
        split; [rewrite Hst, Hs; reflexivity|].
        split; [exists m; split; [assumption | rewrite Her; assumption]|].
        rewrite Htb, Ht by reflexivity. reflexivity.
  - split; [|intros v0 e0 Hv0; discriminate].
    destruct (is_Exception (exc_type e)); [|discriminate].
    destruct (KeywordResult.set_error I e _ KeywordResult.__init__)
      as [d|e1] eqn:Ese; [|discriminate].
    cbn [fst] in *.
    apply set_error_lookup in Ese as (Hs & _).
    rewrite Hst, Hs. discriminate.
Qed.

Lemma C1_status_discipline_witness :
  exists w' data,
    KeywordRunner.run_keyword cpython3 (Some (returning (PStr (Text [0; 233]))))
      [] None hosted_world = (w', Ok data) /\
    data !! "status" = Some (PText "FAIL") /\
    data !! "error"
    = Some (PStr (Text (u "ValueError: Cannot represent '" ++ [92] ++
                        u "x00" ++ [233] ++ u "' as binary."))) /\
    data !! "traceback" = None.
Proof.
  eexists _, _. split; [reflexivity|].
  destruct (C1_status_discipline cpython3 (Some (returning (PStr (Text [0; 233]))))
              [] None hosted_world) as (_ & H & _).
  destruct (H _ _ eq_refl) as [_ H'].
  destruct (H' (PStr (Text [0; 233])) _ eq_refl eq_refl) as (Hs & (m & Hm & He) & Ht).
  split; [exact Hs|]. split; [|exact Ht].
  rewrite He. injection Hm as <-. reflexivity.
Defined.

(** ** Failures and the dispatch boundary *)




(** The encoder is not guarded where it renders an error text or the
    captured output: a RuntimeError whose message holds a control
    character and a non-ASCII character leaves [run_keyword] as a
    ValueError. *)
Lemma unrepresentable_error_text_escapes :
  exists w' e,
    KeywordRunner.run_keyword cpython3
      (Some (raising (plain_exc RuntimeError [0; 233]))) [] None hosted_world
    = (w', Raise e) /\
    exc_type e = ValueError.
Proof. eexists _, _. split; reflexivity. Qed.

(** ** The return key *)

Lemma handle_binary_result_string (I : Interp) (s : PyString) (v : PyVal) :
  KeywordResult._handle_binary_result I s = Ok v ->
  (forall b, v = PStr (Bytes b) -> PY3 I = false) /\
  (v = PBinary [] -> PY3 I = true).
Proof.
  intros H. apply handle_binary_result_shape in H.
  destruct H as [[-> Hc]|(d & -> & Hc & Hd)]; split.
  - intros b Hb. injection Hb as ->.
    unfold KeywordResult._contains_binary in Hc.
    destruct (PY3 I); [discriminate | reflexivity].
  - discriminate.
  - discriminate.
  - intros Hb. injection Hb as ->.
    unfold KeywordResult._contains_binary in Hc.
    destruct (PY3 I); [reflexivity|].
    destruct s as [t|b].
    + destruct t as [|c t]; [discriminate Hc|].
      cbn in Hd. destruct (c <? 128); [|discriminate].
      destruct (Byte.of_N c); [|discriminate].
      destruct (encode_ascii t); discriminate.
    + subst b. discriminate Hc.
Qed.

Lemma str_string (I : Interp) (item v : PyVal) :
  KeywordResult._str I item true = Ok v ->
  (forall b, v = PStr (Bytes b) -> PY3 I = false) /\
  (v = PBinary [] -> PY3 I = true).
Proof.
  unfold KeywordResult._str.
  destruct item as [| | | |s| | | | |];
    try (destruct (unicode I _) as [t|e]; cbn [mbind Exc_bind];
         [apply handle_binary_result_string | discriminate]).
  - intros H. injection H as <-. split; discriminate.
  - cbn [mbind Exc_bind]. apply handle_binary_result_string.
Qed.

Lemma handle_return_value_string (I : Interp) (v v' : PyVal) :
  KeywordResult._handle_return_value I v = Ok v' ->
  (forall b, v' = PStr (Bytes b) -> PY3 I = false) /\
  (v' = PBinary [] -> PY3 I = true).
Proof.
  destruct v as [|b|n|f|s|d|items|items|items|t];
    cbn [KeywordResult._handle_return_value];
    try apply str_string; try apply handle_binary_result_string;
    try (intros H; injection H as <-; split; discriminate).
  - destruct (Exc_map _ items) as [l|e].
    + intros H; injection H as <-; split; discriminate.
    + destruct (is_TypeError (exc_type e)); [apply str_string | discriminate].
  - destruct (Exc_map _ items) as [l|e].
    + intros H; injection H as <-; split; discriminate.
    + destruct (is_TypeError (exc_type e)); [apply str_string | discriminate].
  - destruct (Exc_fold _ items []) as [d|e]; cbn [mbind Exc_bind]; [|discriminate].
    intros H; injection H as <-; split; discriminate.
Qed.

Lemma normalized_empty_string (I : Interp) (v v' : PyVal) :
  KeywordResult._handle_return_value I v = Ok v' ->
  py_ne I v' (PText "") = false <->
  (v' = PStr (Text []) \/ v' = PStr (Bytes [])).
Proof.
  intros H. apply handle_return_value_string in H as [Hb Hd].
  unfold py_ne, py_eq, str_eq. cbn [PText u list_ascii_of_string map].
  rewrite negb_false_iff.
  destruct v' as [| | | |[t|b]|d| | | |];
    try (split; [discriminate | intros [H|H]; discriminate H]).
  - rewrite bool_decide_eq_true. split.
    + intros ->. left. reflexivity.
    + intros [H|H]; [injection H as ->; reflexivity | discriminate H].
  - split.
    + rewrite !andb_true_iff, bool_decide_eq_true. intros [_ H].
      destruct b; [right; reflexivity | discriminate H].
    + intros [H|H]; [discriminate H|]. injection H as ->.
      rewrite (Hb [] eq_refl). reflexivity.
  - split.
    + rewrite !andb_true_iff, bool_decide_eq_true, negb_true_iff.
      intros [[H3 _] H].
      destruct d; [|discriminate H].
      rewrite (Hd eq_refl) in H3. discriminate H3.
    + intros [H|H]; discriminate H.
Qed.

(** C6 (amended): on a successful invocation the normalized return value
    is attached under the return key, and the key is omitted exactly when
    that normalized value is an empty string, as it is for None (and for
    an empty string); a keyword that prints hello and returns None yields
    status PASS and output hello, line break, with no return key. *)
Theorem C6_return_key (I : Interp) (keyword : option Keyword)
    (args : list PyVal) (kwargs : option (list (string * PyVal))) (w : World)
    (v v' : PyVal) :
  let r := the_run keyword args kwargs in
  let hello :=
    keyword_doing {| printed_out := u "hello" ++ [10]; printed_err := [];
                     result := Ok PNone |} in
  (result r = Ok v ->
   KeywordResult._handle_return_value I v = Ok v' ->
   representable I (KeywordRunner.merge (printed_out r) (printed_err r)) ->
     exists data,
       KeywordRunner.run_keyword I keyword args kwargs w = (restored w r, Ok data) /\
       data !! "status" = Some (PText "PASS") /\
       (data !! "return" = None <->
        v' = PStr (Text []) \/ v' = PStr (Bytes [])) /\
       (data !! "return" <> None -> data !! "return" = Some v') /\
       (v = PNone -> data !! "return" = None)) /\
  KeywordRunner.run_keyword I (Some hello) [] None w
  = (restored w (the_run (Some hello) [] None),
     Ok (<["output" := PStr (Text (u "hello" ++ [10]))]>
           {[ "status" := PText "PASS" ]})).
Proof.
  intros r hello. split.
  - intros Hr Hv Hrep. rewrite run_keyword_eq. cbv zeta. fold r.
    unfold KeywordRunner.attempt, KeywordResult.set_return.
    rewrite Hr, Hv. cbn [mbind Exc_bind fst snd].
    set (d0 := KeywordResult.set_status "PASS" _).
    destruct (set_output_representable I _ d0 Hrep) as (d' & Hd' & Hst).
    rewrite Hd'. exists d'. split; [reflexivity|].
    assert (Hret : d' !! "return"
                   = if py_ne I v' (PText "") then Some v' else None).
    { rewrite (set_output_lookup _ _ _ _ "return" Hd') by discriminate.
      unfold d0, KeywordResult.set_status.
      rewrite lookup_insert_ne by discriminate.
      rewrite add_lookup_eq. reflexivity. }
    pose proof (normalized_empty_string I v v' Hv) as Hemp.
    split; [rewrite Hst; unfold d0, KeywordResult.set_status;
            apply lookup_insert_eq|].
    split; [|split].
    + rewrite Hret. destruct (py_ne I v' (PText "")).
      * split; [discriminate|]. intros H. apply Hemp in H. discriminate H.
      * split; [intros _; apply Hemp; reflexivity | reflexivity].
    + rewrite Hret. destruct (py_ne I v' (PText "")); [reflexivity | congruence].
    + intros ->. cbn in Hv. injection Hv as <-. rewrite Hret.
      destruct Hemp as [_ Hemp]. rewrite Hemp by (left; reflexivity). reflexivity.
  - rewrite run_keyword_eq. cbv zeta.
    unfold hello, the_run, keyword_doing. cbn [call result printed_out printed_err
      KeywordRunner._handle_binary_args map default].
    unfold KeywordRunner.attempt, KeywordResult.set_return.
    cbn [KeywordResult._handle_return_value KeywordResult._str mbind Exc_bind fst snd].
    unfold KeywordResult.set_output, KeywordRunner.merge.
    cbn [app u map list_ascii_of_string].
    unfold KeywordResult._handle_binary_result, KeywordResult._contains_binary.
    destruct (PY3 I); reflexivity.
Qed.

Lemma C6_return_key_witness :
  exists data,
    KeywordRunner.run_keyword cpython3 (Some (returning (PInt 42))) [] None hosted_world
    = (restored hosted_world (the_run (Some (returning (PInt 42))) [] None), Ok data) /\
    data !! "status" = Some (PText "PASS") /\
    data !! "return" = Some (PInt 42).
Proof.
  destruct (C6_return_key cpython3 (Some (returning (PInt 42))) [] None hosted_world
              (PInt 42) (PInt 42)) as [H _].
  destruct (H eq_refl eq_refl) as (data & Hrun & Hs & Hiff & Hsome & _).
  { eexists. reflexivity. }
  exists data. split; [exact Hrun|]. split; [exact Hs|].
  apply Hsome. intros Hn. apply Hiff in Hn as [Hn|Hn]; discriminate Hn.
Defined.

(** C6, as stated, fails: a keyword that returns the empty text (not
    None) also yields an outcome with no return key. *)
Lemma C6_empty_text_return_omitted :
  exists w' data,
    KeywordRunner.run_keyword cpython3 (Some (returning (PText ""))) [] None
      hosted_world = (w', Ok data) /\
    data !! "status" = Some (PText "PASS") /\
    data !! "return" = None /\
    PText "" <> PNone.
Proof.
  eexists _, _. split; [reflexivity|].
  split; [reflexivity|]. split; [reflexivity | discriminate].
Qed.

(** ** Round trip of plain structures *)

Lemma Exc_map_Ok {A B : Type} (f : A -> Exc B) (g : A -> B) (xs : list A) :
  (forall x, In x xs -> f x = Ok (g x)) -> Exc_map f xs = Ok (map g xs).
Proof.
  induction xs as [|x xs IH]; intros H; cbn; [reflexivity|].
  rewrite (H x) by (left; reflexivity). cbn.
  rewrite IH by (intros y Hy; apply H; right; assumption). reflexivity.
Qed.

Lemma str_of_plain_key (I : Interp) (key : PyVal) (s : PyString) :
  key_text I key = Some s ->
  KeywordResult._contains_binary I s = false ->
  KeywordResult._str I key true = Ok (PStr s).
Proof.
  intros Hk Hs.
  assert (Hh : KeywordResult._handle_binary_result I s = Ok (PStr s))
    by (unfold KeywordResult._handle_binary_result; rewrite Hs; reflexivity).
  destruct key as [|[]| | |s'| | | | |]; cbn in Hk; try discriminate;
    injection Hk as <-; cbn; try exact Hh.
  unfold KeywordResult._handle_binary_result, KeywordResult._contains_binary.
  destruct (PY3 I); reflexivity.
Qed.

Lemma dict_update_fresh (I : Interp) (d : list (PyString * PyVal))
    (s : PyString) (x : PyVal) :
  forallb (fun s0 => negb (str_eq I s0 s)) (map fst d) = true ->
  dict_update I (string_keyed d) (PStr s) x = string_keyed (d ++ [(s, x)]).
Proof.
  induction d as [|[s0 x0] d IH]; cbn; [reflexivity|].
  rewrite andb_true_iff, negb_true_iff. intros [H0 H].
  rewrite H0. f_equal. apply IH, H.
Qed.

Lemma distinct_keys_app (I : Interp) (a : list PyString) (s : PyString)
    (rest : list PyString) :
  distinct_keys I (a ++ s :: rest) = true ->
  forallb (fun s0 => negb (str_eq I s0 s)) a = true /\
  distinct_keys I ((a ++ [s]) ++ rest) = true.
Proof.
  intros H. split.
  - induction a as [|k a IH]; [reflexivity|].
    cbn in H |- *. apply andb_true_iff in H as [Hk H].
    rewrite forallb_app in Hk. apply andb_true_iff in Hk as [_ Hk].
    cbn in Hk. apply andb_true_iff in Hk as [Hk _].
    rewrite Hk. apply IH, H.
  - rewrite <- app_assoc. exact H.
Qed.

Lemma dict_loop_plain (I : Interp) (items : list (PyVal * PyVal)) :
  forall sacc : list (PyString * PyVal),
  (forall key value, In (key, value) items ->
     exists s, key_text I key = Some s /\
               KeywordResult._contains_binary I s = false /\
               KeywordResult._handle_return_value I value
               = Ok (transport_form I value)) ->
  distinct_keys I (map fst sacc ++ omap (fun kv => key_text I (fst kv)) items)
  = true ->
  Exc_fold (fun acc '(key, value) =>
              k ← KeywordResult._str I key true;
              v ← KeywordResult._handle_return_value I value;
              KeywordResult.dict_setitem I acc k v) items (string_keyed sacc)
  = Ok (string_keyed sacc ++
        map (fun '(key, value) => (key_form I key, transport_form I value)) items).
Proof.
  induction items as [|[key value] items IH]; intros sacc Hitems Hd.
  - cbn. rewrite app_nil_r. reflexivity.
  - destruct (Hitems key value (or_introl eq_refl)) as (s & Hk & Hs & Hv).
    cbn [Exc_fold]. rewrite (str_of_plain_key I key s Hk Hs), Hv.
    cbn [mbind Exc_bind]. unfold KeywordResult.dict_setitem. cbn [hashable].
    cbn [omap list_omap fst] in Hd. rewrite Hk in Hd.
    apply distinct_keys_app in Hd as [Hfresh Hd].
    rewrite (dict_update_fresh I sacc s _ Hfresh).
    cbn [mbind Exc_bind].
    rewrite IH.
    + cbn [map].
      replace (key_form I key) with (PStr s)
        by (unfold key_form; rewrite Hk; reflexivity).
      unfold string_keyed. rewrite map_app, <- app_assoc. reflexivity.
    + intros k x Hin. apply Hitems. right. exact Hin.
    + rewrite map_app. exact Hd.
Qed.

Lemma forallb_In {A : Type} (p : A -> bool) (xs : list A) (x : A) :
  forallb p xs = true -> In x xs -> p x = true.
Proof. intros H Hin. rewrite forallb_forall in H. apply H, Hin. Qed.

(** Normalization of a plain structure returns its transport form. *)
Lemma handle_return_value_plain (I : Interp) (v : PyVal) :
  plain I v = true ->
  KeywordResult._handle_return_value I v = Ok (transport_form I v).
Proof.
  induction v as [| | | |s| |items IH|items IH|items IH|]
    using PyVal_nested_ind; cbn [plain]; intros Hp; try discriminate;
    try reflexivity.
  - cbn. unfold KeywordResult._handle_binary_result.
    rewrite Hp. reflexivity.
  - cbn [KeywordResult._handle_return_value transport_form].
    rewrite (Exc_map_Ok _ (transport_form I)); [reflexivity|].
    intros x Hin. rewrite List.Forall_forall in IH.
    apply IH; [exact Hin | eapply forallb_In; eassumption].
  - cbn [KeywordResult._handle_return_value transport_form].
    rewrite (Exc_map_Ok _ (transport_form I)); [reflexivity|].
    intros x Hin. rewrite List.Forall_forall in IH.
    apply IH; [exact Hin | eapply forallb_In; eassumption].
  - apply andb_true_iff in Hp as [Hall Hd].
    cbn [KeywordResult._handle_return_value transport_form].
    change (@nil (PyVal * PyVal)) with (string_keyed []).
    rewrite dict_loop_plain; [reflexivity| |exact Hd].
    intros key value Hin.
    pose proof (forallb_In _ _ _ Hall Hin) as Hkv. cbn beta iota in Hkv.
    apply andb_true_iff in Hkv as [Hk Hv].
    destruct (key_text I key) as [s|]; [|discriminate].
    exists s. split; [reflexivity|]. split; [apply negb_true_iff, Hk|].
    rewrite List.Forall_forall in IH. apply (IH _ Hin). exact Hv.
Qed.

Lemma key_form_plain (I : Interp) (key : PyVal) (s : PyString) :
  key_text I key = Some s ->
  key_form I key = PStr s /\ key_text I (key_form I key) = Some s.
Proof. intros H. unfold key_form. rewrite H. split; reflexivity. Qed.

Lemma safe_string_is_text (I : Interp) (s : PyString) :
  KeywordResult._contains_binary I s = false ->
  match s with Text _ => true | Bytes _ => negb (PY3 I) end = true.
Proof.
  unfold KeywordResult._contains_binary.
  destruct s as [t|b]; [reflexivity|].
  destruct (PY3 I); [discriminate | reflexivity].
Qed.

(** The transport form of a plain structure is plain, is its own
    transport form, and has text keys only. *)
Lemma transport_form_plain (I : Interp) (v : PyVal) :
  plain I v = true ->
  plain I (transport_form I v) = true /\
  transport_form I (transport_form I v) = transport_form I v /\
  keys_are_text I (transport_form I v) = true.
Proof.
  induction v as [| | | |s| |items IH|items IH|items IH|]
    using PyVal_nested_ind; cbn [plain]; intros Hp; try discriminate;
    try (split; [exact Hp | split; reflexivity]);
    try (split; [reflexivity | split; reflexivity]).
  - rewrite List.Forall_forall in IH.
    assert (H : forall x, In x items ->
                plain I (transport_form I x) = true /\
                transport_form I (transport_form I x) = transport_form I x /\
                keys_are_text I (transport_form I x) = true)
      by (intros x Hin; apply IH; [exact Hin | eapply forallb_In; eassumption]).
    cbn [transport_form plain keys_are_text]. split; [|split].
    + apply forallb_forall. intros y Hy. apply in_map_iff in Hy as (x & <- & Hin).
      apply H, Hin.
    + f_equal. rewrite map_map. apply map_ext_in. intros x Hin. apply H, Hin.
    + apply forallb_forall. intros y Hy. apply in_map_iff in Hy as (x & <- & Hin).
      apply H, Hin.
  - rewrite List.Forall_forall in IH.
    assert (H : forall x, In x items ->
                plain I (transport_form I x) = true /\
                transport_form I (transport_form I x) = transport_form I x /\
                keys_are_text I (transport_form I x) = true)
      by (intros x Hin; apply IH; [exact Hin | eapply forallb_In; eassumption]).
    cbn [transport_form plain keys_are_text]. split; [|split].
    + apply forallb_forall. intros y Hy. apply in_map_iff in Hy as (x & <- & Hin).
      apply H, Hin.
    + f_equal. rewrite map_map. apply map_ext_in. intros x Hin. apply H, Hin.
    + apply forallb_forall. intros y Hy. apply in_map_iff in Hy as (x & <- & Hin).
      apply H, Hin.
  - apply andb_true_iff in Hp as [Hall Hd].
    rewrite List.Forall_forall in IH.
    assert (H : forall key value, In (key, value) items ->
                exists s, key_text I key = Some s /\
                          KeywordResult._contains_binary I s = false /\
                          plain I (transport_form I value) = true /\
                          transport_form I (transport_form I value)
                          = transport_form I value /\
                          keys_are_text I (transport_form I value) = true).
    { intros key value Hin.
      pose proof (forallb_In _ _ _ Hall Hin) as Hkv. cbn beta iota in Hkv.
      apply andb_true_iff in Hkv as [Hk Hv].
      destruct (key_text I key) as [s|]; [|discriminate].
      exists s. split; [reflexivity|]. split; [apply negb_true_iff, Hk|].
      destruct (IH _ Hin) as [_ IHv]. apply IHv, Hv. }
    assert (Hkeys : omap (fun kv => key_text I (fst kv))
                      (map (fun '(key, value) =>
                              (key_form I key, transport_form I value)) items)
                    = omap (fun kv => key_text I (fst kv)) items).
    { clear Hall Hd IH. induction items as [|[key value] items IHi];
        [reflexivity|].
      destruct (H key value (or_introl eq_refl)) as (s & Hk & _).
      destruct (key_form_plain I key s Hk) as [_ Hk'].
      cbn [map omap list_omap fst]. rewrite Hk', Hk. f_equal.
      apply IHi. intros k x Hin. apply H. right. exact Hin. }
    cbn [transport_form plain keys_are_text]. split; [|split].
    + apply andb_true_iff. split; [|rewrite Hkeys; exact Hd].
      apply forallb_forall. intros y Hy.
      apply in_map_iff in Hy as ([key value] & <- & Hin).
      destruct (H key value Hin) as (s & Hk & Hs & Hpv & _).
      destruct (key_form_plain I key s Hk) as [_ Hk'].
      rewrite Hk', Hs, Hpv. reflexivity.
    + f_equal. rewrite map_map. apply map_ext_in. intros [key value] Hin.
      destruct (H key value Hin) as (s & Hk & Hs & _ & Hidem & _).
      destruct (key_form_plain I key s Hk) as [Hf _].
      rewrite Hidem, Hf. reflexivity.
    + apply forallb_forall. intros y Hy.
      apply in_map_iff in Hy as ([key value] & <- & Hin).
      destruct (H key value Hin) as (s & Hk & Hs & _ & _ & Hkt).
      destruct (key_form_plain I key s Hk) as [Hf _].
      rewrite Hf, Hkt, (safe_string_is_text I s Hs). reflexivity.
Qed.

(** C7 (amended): normalization maps a nested structure of sequences and
    mappings whose leaves are integers, floats, booleans and binary-safe
    strings, and whose keys are coerced to distinct binary-safe strings,
    to the identical structure in which every key is text and every leaf
    is unchanged; normalizing the result again returns it unchanged.  The
    structure mapping a to the list of 1, x and a mapping from b to 2 is
    returned as it is. *)
Theorem C7_plain_structures_round_trip (I : Interp) (v : PyVal)
    (Hplain : plain I v = true) :
  KeywordResult._handle_return_value I v = Ok (transport_form I v) /\
  keys_are_text I (transport_form I v) = true /\
  KeywordResult._handle_return_value I (transport_form I v)
  = Ok (transport_form I v) /\
  KeywordResult._handle_return_value I nested_example = Ok nested_example.
Proof.
  destruct (transport_form_plain I v Hplain) as (Hp & Hidem & Hkeys).
  split; [apply handle_return_value_plain, Hplain|].
  split; [exact Hkeys|].
  split.
  - rewrite <- Hidem at 2. apply handle_return_value_plain, Hp.
  - assert (He : plain I nested_example = true).
    { cbn. unfold KeywordResult._contains_binary. destruct (PY3 I); reflexivity. }
    apply handle_return_value_plain in He. exact He.
Qed.

Lemma C7_plain_structures_round_trip_witness :
  plain cpython3 nested_example = true /\
  KeywordResult._handle_return_value cpython3 nested_example = Ok nested_example /\
  keys_are_text cpython3 nested_example = true.
Proof.
  split; [reflexivity|].
  destruct (C7_plain_structures_round_trip cpython3 nested_example eq_refl)
    as (H & Hk & _).
  split; [exact H | exact Hk].
Defined.

(** C7, as stated, fails: a text leaf that holds a control character is
    replaced by a Binary, and normalization is not idempotent: under
    Python 3 the bytes abc normalize to a Binary, and that Binary
    normalizes to the text abc. *)
Lemma C7_leaf_changed_and_not_idempotent :
  KeywordResult._handle_return_value cpython3 (PList [PStr (Text [0])])
  = Ok (PList [PBinary [x00]]) /\
  KeywordResult._handle_return_value cpython3 (PStr (Bytes (b8 "abc")))
  = Ok (PBinary (b8 "abc")) /\
  KeywordResult._handle_return_value cpython3 (PBinary (b8 "abc"))
  = Ok (PText "abc") /\
  PBinary (b8 "abc") <> PText "abc".
Proof. repeat split; discriminate. Qed.

(** ** Keyword arguments *)

Lemma get_keyword_arguments_unresolved (I : Interp) (self : RemoteLibrary.t)
    (name : string) :
  RemoteLibrary._get_keyword self name = None ->
  RemoteLibrary.get_keyword_arguments I self name = Ok [].
Proof.
  intros H. unfold RemoteLibrary.get_keyword_arguments. rewrite H. reflexivity.
Qed.

Lemma get_keyword_arguments_b (I : Interp) :
  RemoteLibrary.get_keyword_arguments I library_a_b "b"
  = Ok [PText "x"; PText "y=1"] /\
  RemoteLibrary.get_keyword_arguments I library_a_b "a" = Ok [] /\
  RemoteLibrary.get_keyword_arguments I library_a_b "c" = Ok [].
Proof. repeat split. Qed.




(** C8 fails on the code for a bound method whose receiver has a default:
    for [def kw(self=None, x=1)] the receiver is dropped from the names
    and not from the defaults, and the parameter x is rendered with the
    default of the receiver, x=None, where the claim has x=1. *)
Theorem C8_defaulted_receiver_misaligns_defaults :
  RemoteLibrary.get_keyword_arguments cpython3 library_defaulted_receiver "kw"
  = Ok [PText "x=None"] /\
  RemoteLibrary.get_keyword_arguments cpython2 library_defaulted_receiver "kw"
  = Ok [PText "x=None"].
Proof. split; reflexivity. Qed.

(** ** Underscore-prefixed names *)

Lemma scan_excludes_underscore (self : RemoteLibrary.t)
    (attrs : list (string * Attr)) (l : list PyVal) :
  RemoteLibrary.scan self attrs = Ok l ->
  exists names, l = map PText names /\
                forall n, In n names -> ~ starts_with_underscore n.
Proof.
  revert l. induction attrs as [|[attr a] attrs IH]; intros l; cbn.
  - intros H. injection H as <-. exists []. split; [reflexivity|]. intros n [].
  - destruct attr as [|c rest]; [discriminate|].
    destruct (RemoteLibrary.scan self attrs) as [r|e]; cbn; [|discriminate].
    destruct (IH r eq_refl) as (names & -> & Hn).
    destruct (Ascii.eqb c "_") eqn:Ec; cbn [negb andb].
    + intros H. injection H as <-. eauto.
    + destruct (bool_decide _); intros H; injection H as <-; [|eauto].
      exists (String c rest :: names). split; [reflexivity|].
      intros n [<-|Hin]; [|apply Hn, Hin].
      intros [rest' Hr]. injection Hr as -> _.
      rewrite Ascii.eqb_refl in Ec. discriminate.
Qed.

(** C10 (amended): a function or method attribute whose name starts with
    an underscore is resolved and executed by [run_keyword], even though,
    for a library with no enumeration method of its own,
    [get_keyword_names] lists no name that starts with an underscore. *)
Theorem C10_underscore_keywords_run (I : Interp) (self : RemoteLibrary.t)
    (name : string) (kw : Keyword) (args : list PyVal)
    (kwargs : option (list (string * PyVal))) (w : World)
    (Hname : starts_with_underscore name)
    (Hattr : RemoteLibrary.getattr (RemoteLibrary._library self) name
             = Some (Callable kw)) :
  RemoteLibrary._get_keyword self name = Some kw /\
  RemoteLibrary.run_keyword I self name args kwargs w
  = KeywordRunner.run_keyword I (Some kw) args kwargs w /\
  the_run (RemoteLibrary._get_keyword self name) args kwargs
  = call kw (map KeywordRunner._handle_binary_arg args)
      (map (fun '(k, v) => (k, KeywordRunner._handle_binary_arg v))
         (default [] kwargs)) /\
  (no_enumerator self ->
   forall listing, RemoteLibrary.get_keyword_names I self = Ok listing ->
     exists names,
       listing = PList (map PText names) /\
       ~ In name names /\
       forall n, In n names -> ~ starts_with_underscore n).
Proof.
  assert (Hres : RemoteLibrary._get_keyword self name = Some kw).
  { unfold RemoteLibrary._get_keyword. destruct Hname as [rest ->].
    cbn [String.eqb Ascii.eqb Bool.eqb]. rewrite Hattr. reflexivity. }
  split; [exact Hres|].
  split; [unfold RemoteLibrary.run_keyword; rewrite Hres; reflexivity|].
  split; [rewrite Hres; reflexivity|].
  intros Hno listing. unfold RemoteLibrary.get_keyword_names.
  assert (Hdefault :
            RemoteLibrary._is_function_or_method
              (if RemoteLibrary.attr_truthy
                    (RemoteLibrary.getattr (RemoteLibrary._library self)
                       "get_keyword_names")
               then RemoteLibrary.getattr (RemoteLibrary._library self)
                      "get_keyword_names"
               else RemoteLibrary.getattr (RemoteLibrary._library self)
                      "getKeywordNames") = None).
  { pose proof (Hno "get_keyword_names") as H1.
    pose proof (Hno "getKeywordNames") as H2.
    destruct (RemoteLibrary.getattr _ "get_keyword_names") as [[k1|v1]|];
      [exfalso; apply (H1 k1); [left|]; reflexivity| |];
      destruct (RemoteLibrary.getattr _ "getKeywordNames") as [[k2|v2]|];
      try (exfalso; apply (H2 k2); [right|]; reflexivity);
      cbn; try destruct (truthy v1); reflexivity. }
  rewrite Hdefault.
  destruct (RemoteLibrary.scan self (RemoteLibrary._library self)) as [l|e] eqn:Es;
    cbn [mbind Exc_bind]; [|discriminate].
  apply scan_excludes_underscore in Es as (names & -> & Hn).
  destruct (RemoteLibrary._stop_remote_server self).
  - cbn [RemoteLibrary.append_stop]. intros H. injection H as <-.
    exists (names ++ ["stop_remote_server"]).
    split; [rewrite map_app; reflexivity|].
    assert (Hall : forall n, In n (names ++ ["stop_remote_server"]) ->
                   ~ starts_with_underscore n).
    { intros n Hin. apply in_app_or in Hin as [Hin|[<-|[]]]; [apply Hn, Hin|].
      intros [rest Hr]. discriminate Hr. }
    split; [|exact Hall]. intros Hin. apply (Hall name Hin Hname).
  - intros H. injection H as <-. exists names. split; [reflexivity|].
    split; [|exact Hn]. intros Hin. apply (Hn name Hin Hname).
Qed.

Lemma C10_underscore_keywords_run_witness :
  starts_with_underscore "_hidden" /\
  RemoteLibrary.run_keyword cpython3 library_with_hidden "_hidden" [] None
    hosted_world
  = KeywordRunner.run_keyword cpython3 (Some (returning (PInt 1))) [] None
      hosted_world /\
  RemoteLibrary.get_keyword_names cpython3 library_with_hidden
  = Ok (PList [PText "visible"]).
Proof.
  assert (Hname : starts_with_underscore "_hidden") by (eexists; reflexivity).
  split; [exact Hname|].
  split; [|reflexivity].
  apply (C10_underscore_keywords_run cpython3 library_with_hidden "_hidden"
           (returning (PInt 1)) [] None hosted_world Hname eq_refl).
Defined.

(** C10, as stated, fails: a library with an enumeration method of its own
    decides the listing, and the listing then holds the
    underscore-prefixed name the method returns. *)
Lemma C10_own_enumerator_lists_underscore_name :
  RemoteLibrary.get_keyword_names cpython3 library_listing_hidden
  = Ok (PList [PText "_hidden"]) /\
  starts_with_underscore "_hidden".
Proof. split; [reflexivity | eexists; reflexivity]. Qed.

(** * Further properties of the code *)

(** ** Binary blobs, out and back in *)

Lemma encode_ascii_total (t : text) :
  (forall c, In c t -> c < 128) -> exists data, encode_ascii t = Some data.
Proof.
  intros H. destruct (encode_ascii t) as [d|] eqn:E; [eauto|].
  apply encode_ascii_None in E as (c & Hin & Hc). specialize (H c Hin). lia.
Qed.

(** X1: a binary-unsafe string whose characters are all ASCII is returned
    as a Binary whose payload is the string itself, byte for byte, and a
    Binary handed back as an argument reaches the keyword as those raw
    bytes. *)
Theorem X1_binary_blob_round_trip (I : Interp) (s : PyString)
    (Hunsafe : KeywordResult._contains_binary I s = true)
    (Hascii : match s with
              | Text t => forall c, In c t -> c < 128
              | Bytes _ => True
              end)
    (Hplatform : platform_cli I && PY3 I = false) :
  exists data,
    KeywordResult._handle_binary_result I s = Ok (PBinary data) /\
    match s with
    | Text t => decode_latin1 data = t
    | Bytes b => data = b
    end /\
    KeywordRunner._handle_binary_arg (PBinary data) = PStr (Bytes data).
Proof.
  unfold KeywordResult._handle_binary_result, Binary.
  rewrite Hunsafe, Hplatform. cbn [negb].
  destruct s as [t|b].
  - destruct (encode_ascii_total t Hascii) as [data Hd]. rewrite Hd.
    exists data. split; [reflexivity|].
    split; [apply encode_ascii_Some, Hd | reflexivity].
  - exists b. repeat split.
Qed.

Lemma X1_binary_blob_round_trip_witness :
  KeywordResult._handle_binary_result cpython3 (Text [0; 97])
  = Ok (PBinary [x00; x61]) /\
  exists data,
    KeywordResult._handle_binary_result cpython3 (Text [0; 97])
    = Ok (PBinary data) /\
    decode_latin1 data = [0; 97] /\
    KeywordRunner._handle_binary_arg (PBinary data) = PStr (Bytes data).
Proof.
  split; [reflexivity|].
  apply (X1_binary_blob_round_trip cpython3 (Text [0; 97]) eq_refl).
  - intros c [<-|[<-|[]]]; reflexivity.
  - reflexivity.
Defined.


(** ** The shape of an outcome *)

Lemma run_keyword_Ok_inv (I : Interp) (keyword : option Keyword)
    (args : list PyVal) (kwargs : option (list (string * PyVal)))
    (w w' : World) (data : gmap string PyVal) :
  KeywordRunner.run_keyword I keyword args kwargs w = (w', Ok data) ->
  let r := the_run keyword args kwargs in
  exists d0,
    KeywordRunner.attempt I (result r) = (d0, None) /\
    KeywordResult.set_output I
      (KeywordRunner.merge (printed_out r) (printed_err r)) d0 = Ok data /\
    w' = restored w r.
Proof.
  intros Hrun r. rewrite run_keyword_eq in Hrun. cbv zeta in Hrun. fold r in Hrun.
  injection Hrun as Hw Hdata.
  destruct (KeywordRunner.attempt I (result r)) as [d0 fl]. cbn [fst snd] in Hdata.
  destruct (KeywordResult.set_output I _ d0) as [d|e0] eqn:Eout; [|discriminate].
  destruct fl as [e0|]; [discriminate|].
  injection Hdata as ->. exists d0. repeat split; [exact Eout | symmetry; exact Hw].
Qed.

Lemma attempt_None_inv (I : Interp) (returned : Exc PyVal) (d0 : gmap string PyVal) :
  KeywordRunner.attempt I returned = (d0, None) ->
  (exists v v', returned = Ok v /\
                KeywordResult._handle_return_value I v = Ok v' /\
                d0 = KeywordResult.set_status "PASS"
                       (KeywordResult._add I "return" v' (PText "")
                          KeywordResult.__init__)) \/
  (exists v e, returned = Ok v /\
               KeywordResult._handle_return_value I v = Raise e /\
               KeywordResult.set_error I e None KeywordResult.__init__ = Ok d0) \/
  (exists e, returned = Raise e /\ is_Exception (exc_type e) = true /\
             KeywordResult.set_error I e (Some (dispatch_frame :: exc_frames e))
               KeywordResult.__init__ = Ok d0).
Proof.
  unfold KeywordRunner.attempt, KeywordResult.set_return.
  destruct returned as [v|e].
  - destruct (KeywordResult._handle_return_value I v) as [v'|e] eqn:Ev;
      cbn [mbind Exc_bind].
    + intros H. injection H as <-. left. eauto.
    + destruct (is_Exception (exc_type e)); [|discriminate].
      destruct (KeywordResult.set_error I e None _) as [d|e1] eqn:Ese;
        [|discriminate].
      intros H. injection H as <-. right. left. eauto.
  - destruct (is_Exception (exc_type e)) eqn:Eex; [|discriminate].
    destruct (KeywordResult.set_error I e _ _) as [d|e1] eqn:Ese; [|discriminate].
    intros H. injection H as <-. right. right. eauto.
Qed.

Lemma set_error_Ok_inv (I : Interp) (e : PyExc) (tb : option (list text))
    (data d : gmap string PyVal) :
  KeywordResult.set_error I e tb data = Ok d ->
  exists m,
    KeywordResult._get_error_message I e = Ok m /\
    d = KeywordResult._add I "fatal"
          (PBool (KeywordResult._get_error_attribute e "EXIT")) (PBool false)
          (KeywordResult._add I "continuable"
             (PBool (KeywordResult._get_error_attribute e "CONTINUE")) (PBool false)
             (match tb with
              | Some tb =>
                  KeywordResult._add I "traceback"
                    (KeywordResult._get_error_traceback tb) (PText "")
                    (KeywordResult._add I "error" m (PText "") data)
              | None => KeywordResult._add I "error" m (PText "") data
              end)).
Proof.
  unfold KeywordResult.set_error.
  destruct (KeywordResult._get_error_message I e) as [m|e']; cbn [mbind Exc_bind];
    [|discriminate].
  intros H. injection H as <-. exists m. split; [reflexivity|].
  destruct tb; reflexivity.
Qed.

(** Looking a key up in an outcome under construction. *)
Ltac outcome_lookup :=
  repeat first
    [ rewrite add_lookup_ne by discriminate
    | rewrite lookup_insert_ne by discriminate
    | rewrite add_lookup_eq
    | rewrite lookup_insert_eq ].

Lemma flag_ne_False (I : Interp) (b : bool) :
  py_ne I (PBool b) (PBool false) = b.
Proof. destruct b; reflexivity. Qed.

Lemma traceback_shown (I : Interp) (tb : list text) :
  py_ne I (KeywordResult._get_error_traceback tb) (PText "") = true.
Proof. reflexivity. Qed.

(** X3: when the keyword raises, the outcome holds the key continuable,
    with value True, exactly when the exception carries a true
    ROBOT_CONTINUE_ON_FAILURE, and the key fatal, with value True, exactly
    when it carries a true ROBOT_EXIT_ON_FAILURE; a false flag is left out
    of the outcome, not written as False. *)
Theorem X3_failure_flags (I : Interp) (keyword : option Keyword)
    (args : list PyVal) (kwargs : option (list (string * PyVal)))
    (w w' : World) (data : gmap string PyVal) (e : PyExc)
    (Hrun : KeywordRunner.run_keyword I keyword args kwargs w = (w', Ok data))
    (Hraise : result (the_run keyword args kwargs) = Raise e) :
  data !! "continuable"
  = (if ROBOT_CONTINUE_ON_FAILURE e then Some (PBool true) else None) /\
  data !! "fatal"
  = (if ROBOT_EXIT_ON_FAILURE e then Some (PBool true) else None).
Proof.
  apply run_keyword_Ok_inv in Hrun as (d0 & Hatt & Hout & _).
  rewrite Hraise in Hatt.
  apply attempt_None_inv in Hatt
    as [(v & v' & Hr & _)|[(v & e' & Hr & _)|(e' & Hr & _ & Hse)]];
    try discriminate.
  injection Hr as <-.
  apply set_error_Ok_inv in Hse as (m & _ & ->).
  rewrite (set_output_lookup _ _ _ _ "continuable" Hout) by discriminate.
  rewrite (set_output_lookup _ _ _ _ "fatal" Hout) by discriminate.
  split; outcome_lookup; rewrite flag_ne_False; cbn;
    [destruct (ROBOT_CONTINUE_ON_FAILURE e) | destruct (ROBOT_EXIT_ON_FAILURE e)];
    outcome_lookup; reflexivity.
Qed.

Lemma X3_failure_flags_witness :
  exists w' data,
    KeywordRunner.run_keyword cpython3 (Some (raising marked_error)) [] None
      hosted_world = (w', Ok data) /\
    data !! "continuable" = Some (PBool true) /\
    data !! "fatal" = Some (PBool true).
Proof.
  eexists _, _. split; [reflexivity|].
  apply (X3_failure_flags cpython3 (Some (raising marked_error)) [] None
           hosted_world _ _ marked_error eq_refl eq_refl).
Defined.

(** X4: when the keyword raises, the outcome holds a traceback: the line
    Traceback (most recent call last): followed by the entries of the
    frames below [run_keyword], whose own entry is left out. *)
Theorem X4_traceback_without_dispatch_frame (I : Interp) (keyword : option Keyword)
    (args : list PyVal) (kwargs : option (list (string * PyVal)))
    (w w' : World) (data : gmap string PyVal) (e : PyExc)
    (Hrun : KeywordRunner.run_keyword I keyword args kwargs w = (w', Ok data))
    (Hraise : result (the_run keyword args kwargs) = Raise e) :
  data !! "traceback"
  = Some (PStr (Text (u "Traceback (most recent call last):" ++ [10] ++
                      concat (exc_frames e)))).
Proof.
  apply run_keyword_Ok_inv in Hrun as (d0 & Hatt & Hout & _).
  rewrite Hraise in Hatt.
  apply attempt_None_inv in Hatt
    as [(v & v' & Hr & _)|[(v & e' & Hr & _)|(e' & Hr & _ & Hse)]];
    try discriminate.
  injection Hr as <-.
  apply set_error_Ok_inv in Hse as (m & _ & ->).
  rewrite (set_output_lookup _ _ _ _ "traceback" Hout) by discriminate.
  outcome_lookup. rewrite traceback_shown. reflexivity.
Qed.

Lemma X4_traceback_without_dispatch_frame_witness :
  exists w' data,
    KeywordRunner.run_keyword cpython3 (Some (raising marked_error)) [] None
      hosted_world = (w', Ok data) /\
    data !! "traceback"
    = Some (PStr (Text (u "Traceback (most recent call last):" ++ [10] ++
                        u "  File lib.py, line 3, in kw" ++ [10]))).
Proof.
  eexists _, _. split; [reflexivity|].
  apply (X4_traceback_without_dispatch_frame cpython3 (Some (raising marked_error))
           [] None hosted_world _ _ marked_error eq_refl eq_refl).
Defined.




(** X6: an outcome holds no key besides status, return, error, traceback,
    continuable, fatal and output; its status is PASS or FAIL; an outcome
    with status PASS holds none of error, traceback, continuable and
    fatal, and an outcome with status FAIL holds no return. *)
Theorem X6_outcome_keys (I : Interp) (keyword : option Keyword)
    (args : list PyVal) (kwargs : option (list (string * PyVal)))
    (w w' : World) (data : gmap string PyVal)
    (Hrun : KeywordRunner.run_keyword I keyword args kwargs w = (w', Ok data)) :
  (forall key, ~ In key outcome_keys -> data !! key = None) /\
  (data !! "status" = Some (PText "PASS") /\
   data !! "error" = None /\ data !! "traceback" = None /\
   data !! "continuable" = None /\ data !! "fatal" = None
   \/
   data !! "status" = Some (PText "FAIL") /\ data !! "return" = None).
Proof.
  apply run_keyword_Ok_inv in Hrun as (d0 & Hatt & Hout & _).
  pose proof (fun k => set_output_lookup I _ d0 data k Hout) as Hl.
  assert (Hother : forall key, ~ In key outcome_keys -> data !! key = None).
  { intros key Hk. unfold outcome_keys in Hk. cbn [In] in Hk.
    assert (Hne : forall k, In k outcome_keys -> k <> key)
      by (intros k Hin ->; apply Hk; exact Hin).
    assert (Hs : "status" <> key) by (apply Hne; cbn; tauto).
    assert (Hr : "return" <> key) by (apply Hne; cbn; tauto).
    assert (He : "error" <> key) by (apply Hne; cbn; tauto).
    assert (Ht : "traceback" <> key) by (apply Hne; cbn; tauto).
    assert (Hc : "continuable" <> key) by (apply Hne; cbn; tauto).
    assert (Hf : "fatal" <> key) by (apply Hne; cbn; tauto).
    assert (Ho : "output" <> key) by (apply Hne; cbn; tauto).
    rewrite Hl by congruence.
    apply attempt_None_inv in Hatt
      as [(v & v' & _ & _ & ->)|[(v & e & _ & _ & Hse)|(e & _ & _ & Hse)]].
    - unfold KeywordResult.set_status, KeywordResult.__init__.
      rewrite lookup_insert_ne, add_lookup_ne by assumption.
      apply lookup_singleton_ne. assumption.
    - apply set_error_Ok_inv in Hse as (m & _ & ->).
      rewrite !add_lookup_ne by assumption.
      apply lookup_singleton_ne. assumption.
    - apply set_error_Ok_inv in Hse as (m & _ & ->).
      rewrite !add_lookup_ne by assumption.
      apply lookup_singleton_ne. assumption. }
  split; [exact Hother|].
  rewrite !Hl by discriminate.
  apply attempt_None_inv in Hatt
    as [(v & v' & _ & _ & ->)|[(v & e & _ & _ & Hse)|(e & _ & _ & Hse)]].
  - left. unfold KeywordResult.set_status.
    repeat split; outcome_lookup; reflexivity.
  - right. apply set_error_Ok_inv in Hse as (m & _ & ->).
    split; outcome_lookup; reflexivity.
  - right. apply set_error_Ok_inv in Hse as (m & _ & ->).
    split; outcome_lookup; reflexivity.
Qed.

Lemma X6_outcome_keys_witness :
  exists w' data,
    KeywordRunner.run_keyword cpython3 (Some (raising marked_error)) [] None
      hosted_world = (w', Ok data) /\
    data !! "status" = Some (PText "FAIL") /\
    data !! "return" = None /\
    data !! "stack" = None.
Proof.
  eexists _, _. split; [reflexivity|].
  destruct (X6_outcome_keys cpython3 (Some (raising marked_error)) [] None
              hosted_world _ _ eq_refl) as [Hk [[Hs _]|[Hs Hr]]].
  - discriminate Hs.
  - split; [exact Hs|]. split; [exact Hr|].
    apply Hk. cbn. intros H.
    repeat (destruct H as [H|H]; [discriminate H|]). exact H.
Defined.

(** X7: a name that resolves to no callable yields exactly the outcome
    with status FAIL, the error TypeError: 'NoneType' object is not
    callable and a traceback that is its heading alone; nothing is
    captured, and the streams are restored. *)
Theorem X7_unresolved_name_outcome (I : Interp) (self : RemoteLibrary.t)
    (name : string) (args : list PyVal)
    (kwargs : option (list (string * PyVal))) (w : World)
    (Hnone : RemoteLibrary._get_keyword self name = None) :
  RemoteLibrary.run_keyword I self name args kwargs w
  = (restored w (the_run None args kwargs),
     Ok (<["traceback" := PStr (Text (u "Traceback (most recent call last):"
                                      ++ [10]))]>
           (<["error" := PText "TypeError: 'NoneType' object is not callable"]>
              {[ "status" := PText "FAIL" ]}))).
Proof.
  unfold RemoteLibrary.run_keyword. rewrite Hnone, run_keyword_eq. cbv zeta.
  cbn [the_run result printed_out printed_err].
  unfold KeywordRunner.attempt, KeywordResult.set_error,
    KeywordResult._get_error_message, KeywordResult._get_message_from_exception,
    KeywordResult._handle_binary_result, KeywordResult._contains_binary.
  destruct (PY3 I); reflexivity.
Qed.

Lemma X7_unresolved_name_outcome_witness :
  RemoteLibrary._get_keyword library_a_b "c" = None /\
  exists w' data,
    RemoteLibrary.run_keyword cpython3 library_a_b "c" [PInt 1] None hosted_world
    = (w', Ok data) /\
    data !! "status" = Some (PText "FAIL").
Proof.
  split; [reflexivity|].
  eexists _, _. split.
  - apply (X7_unresolved_name_outcome cpython3 library_a_b "c" [PInt 1] None
             hosted_world eq_refl).
  - reflexivity.
Defined.

(** ** What the encoder emits *)

Lemma handle_binary_result_transport (I : Interp) (s : PyString) (v : PyVal) :
  KeywordResult._handle_binary_result I s = Ok v ->
  (exists s', v = PStr s' /\ KeywordResult._contains_binary I s' = false) \/
  (exists data, v = PBinary data).
Proof.
  intros H. apply handle_binary_result_shape in H as [[-> Hs]|(d & -> & _)];
    [left | right]; eauto.
Qed.

Lemma str_transport (I : Interp) (item v : PyVal) :
  KeywordResult._str I item true = Ok v ->
  (exists s', v = PStr s' /\ KeywordResult._contains_binary I s' = false) \/
  (exists data, v = PBinary data).
Proof.
  unfold KeywordResult._str.
  destruct item as [| | | |s| | | | |];
    try (destruct (unicode I _) as [t|e]; cbn [mbind Exc_bind];
         [apply handle_binary_result_transport | discriminate]).
  - intros H. injection H as <-. left. exists (Text []). split; [reflexivity|].
    unfold KeywordResult._contains_binary. destruct (PY3 I); reflexivity.
  - cbn [mbind Exc_bind]. apply handle_binary_result_transport.
Qed.

Lemma string_or_binary_transport (I : Interp) (v : PyVal) :
  (exists s', v = PStr s' /\ KeywordResult._contains_binary I s' = false) \/
  (exists data, v = PBinary data) ->
  transport_value I v = true.
Proof.
  intros [(s & -> & Hs)|(d & ->)]; cbn; [rewrite Hs|]; reflexivity.
Qed.

Lemma Exc_map_Ok_inv {A B : Type} (f : A -> Exc B) (xs : list A) (ys : list B) :
  Exc_map f xs = Ok ys ->
  forall y, In y ys -> exists x, In x xs /\ f x = Ok y.
Proof.
  revert ys. induction xs as [|x xs IH]; intros ys; cbn.
  - intros H. injection H as <-. intros y [].
  - destruct (f x) as [y0|e] eqn:E; cbn; [|discriminate].
    destruct (Exc_map f xs) as [r|e]; cbn; [|discriminate].
    intros H. injection H as <-. intros y [<-|Hin]; [eauto|].
    destruct (IH r eq_refl y Hin) as (x' & Hx' & Hy). eauto.
Qed.

Lemma Exc_fold_invariant {A B : Type} (P : B -> Prop) (f : B -> A -> Exc B)
    (xs : list A) :
  (forall acc x acc', P acc -> In x xs -> f acc x = Ok acc' -> P acc') ->
  forall acc r, P acc -> Exc_fold f xs acc = Ok r -> P r.
Proof.
  induction xs as [|x xs IH]; intros Hstep acc r Hacc; cbn.
  - intros H. injection H as <-. exact Hacc.
  - destruct (f acc x) as [acc'|e] eqn:E; cbn; [|discriminate].
    apply IH.
    + intros a y a' Ha Hy. apply Hstep; [exact Ha | right; exact Hy].
    + eapply Hstep; [exact Hacc | left; reflexivity | exact E].
Qed.

Lemma dict_update_transport (I : Interp) (d : list (PyVal * PyVal))
    (s : PyString) (x : PyVal) :
  transport_pairs I d ->
  KeywordResult._contains_binary I s = false ->
  transport_value I x = true ->
  transport_pairs I (dict_update I d (PStr s) x).
Proof.
  unfold transport_pairs. intros Hd Hs Hx.
  induction d as [|[k0 x0] d IH]; cbn [dict_update].
  - cbn. rewrite Hs, Hx. reflexivity.
  - cbn [transport_value forallb] in Hd. apply andb_true_iff in Hd as [H0 Hd].
    apply andb_true_iff in H0 as [Hk0 Hx0].
    destruct (py_key_eq I k0 (PStr s)); cbn [transport_value forallb].
    + rewrite Hk0, Hx. exact Hd.
    + rewrite Hk0, Hx0. apply IH, Hd.
Qed.

(** X8: whatever value a keyword returns, if its normalization succeeds
    the result is a transport value: it is built from binary-safe
    strings, numbers, booleans, Binary blobs, lists and mappings only,
    and every key of every mapping in it is a binary-safe string (no
    None, no tuple, no other object survives). *)
Theorem X8_normalized_is_transport_value (I : Interp) (v v' : PyVal)
    (Hnorm : KeywordResult._handle_return_value I v = Ok v') :
  transport_value I v' = true.
Proof.
  revert v' Hnorm.
  induction v as [| | | |s| |items IH|items IH|items IH|]
    using PyVal_nested_ind; intros v';
    cbn [KeywordResult._handle_return_value];
    try (intros H; injection H as <-; reflexivity);
    try (intros H; apply string_or_binary_transport;
         first [eapply str_transport, H | eapply handle_binary_result_transport, H]).
  - destruct (Exc_map _ items) as [l|e] eqn:E.
    + intros H. injection H as <-. cbn [transport_value].
      apply forallb_forall. intros y Hy.
      destruct (Exc_map_Ok_inv _ _ _ E y Hy) as (x & Hx & Hxy).
      rewrite List.Forall_forall in IH. apply (IH x Hx y Hxy).
    + destruct (is_TypeError (exc_type e)); [|discriminate].
      intros H. eapply string_or_binary_transport, str_transport, H.
  - destruct (Exc_map _ items) as [l|e] eqn:E.
    + intros H. injection H as <-. cbn [transport_value].
      apply forallb_forall. intros y Hy.
      destruct (Exc_map_Ok_inv _ _ _ E y Hy) as (x & Hx & Hxy).
      rewrite List.Forall_forall in IH. apply (IH x Hx y Hxy).
    + destruct (is_TypeError (exc_type e)); [|discriminate].
      intros H. eapply string_or_binary_transport, str_transport, H.
  - destruct (Exc_fold _ items []) as [d|e] eqn:E; cbn [mbind Exc_bind];
      [|discriminate].
    intros H. injection H as <-.
    change (transport_pairs I d).
    apply (fun Hs => Exc_fold_invariant (transport_pairs I) _ items Hs [] d
                       eq_refl E).
    intros acc [key value] acc' Hacc Hin Hstep.
    destruct (KeywordResult._str I key true) as [k|e] eqn:Ek;
      cbn [mbind Exc_bind] in Hstep; [|discriminate].
    destruct (KeywordResult._handle_return_value I value) as [x|e] eqn:Ex;
      cbn [mbind Exc_bind] in Hstep; [|discriminate].
    unfold KeywordResult.dict_setitem in Hstep.
    destruct (hashable k) eqn:Eh; [|discriminate].
    injection Hstep as <-.
    rewrite List.Forall_forall in IH. destruct (IH _ Hin) as [_ IHx].
    apply str_transport in Ek as [(s & -> & Hs)|(data & ->)]; [|discriminate].
    apply dict_update_transport; [exact Hacc | exact Hs | apply IHx, Ex].
Qed.

Lemma X8_normalized_is_transport_value_witness :
  KeywordResult._handle_return_value cpython3
    (PTuple [PNone; PObject (u "obj"); PDict [(PInt 1, PStr (Text [0]))]])
  = Ok (PList [PText ""; PText "obj"; PDict [(PText "1", PBinary [x00])]]) /\
  transport_value cpython3
    (PList [PText ""; PText "obj"; PDict [(PText "1", PBinary [x00])]]) = true.
Proof.
  split; [reflexivity|].
  apply (X8_normalized_is_transport_value cpython3
           (PTuple [PNone; PObject (u "obj"); PDict [(PInt 1, PStr (Text [0]))]])).
  reflexivity.
Defined.

(** ** The catalog *)

Lemma scan_public_callables (self : RemoteLibrary.t) (attrs : list (string * Attr)) :
  (forall name, In name (map fst attrs) -> name <> "") ->
  RemoteLibrary.scan self attrs
  = Ok (map PText
          (List.filter (fun name => public name && callable_attribute self name)
             (map fst attrs))).
Proof.
  induction attrs as [|[attr a] attrs IH]; intros Hne; [reflexivity|].
  cbn [RemoteLibrary.scan map fst List.filter].
  destruct attr as [|c rest]; [exfalso; apply (Hne ""); [left|]; reflexivity|].
  rewrite IH by (intros n Hn; apply Hne; right; exact Hn).
  cbn [mbind Exc_bind public]. unfold callable_attribute.
  destruct (RemoteLibrary.getattr _ (String c rest)) as [[kw|v]|];
    cbn; destruct (negb (Ascii.eqb c "_")); reflexivity.
Qed.

Lemma no_enumerator_default (self : RemoteLibrary.t) :
  no_enumerator self ->
  RemoteLibrary._is_function_or_method
    (if RemoteLibrary.attr_truthy
          (RemoteLibrary.getattr (RemoteLibrary._library self) "get_keyword_names")
     then RemoteLibrary.getattr (RemoteLibrary._library self) "get_keyword_names"
     else RemoteLibrary.getattr (RemoteLibrary._library self) "getKeywordNames")
  = None.
Proof.
  intros Hno.
  pose proof (Hno "get_keyword_names") as H1.
  pose proof (Hno "getKeywordNames") as H2.
  destruct (RemoteLibrary.getattr _ "get_keyword_names") as [[k1|v1]|];
    [exfalso; apply (H1 k1); [left|]; reflexivity| |];
    destruct (RemoteLibrary.getattr _ "getKeywordNames") as [[k2|v2]|];
    try (exfalso; apply (H2 k2); [right|]; reflexivity);
    cbn; try destruct (truthy v1); reflexivity.
Qed.

(** X9: for a library without an enumeration method of its own, the
    listing is the names of its public function and method attributes,
    in the order of [dir], followed by stop_remote_server when a stop
    capability is registered; a name is among the first exactly when it
    is an attribute that does not start with an underscore and is a
    function or method. *)
Theorem X9_default_listing (I : Interp) (self : RemoteLibrary.t)
    (Hno : no_enumerator self)
    (Hnames : forall name,
        In name (map fst (RemoteLibrary._library self)) -> name <> "") :
  RemoteLibrary.get_keyword_names I self
  = Ok (PList (map PText
                 (public_callables self ++
                  match RemoteLibrary._stop_remote_server self with
                  | Some _ => ["stop_remote_server"]
                  | None => []
                  end))) /\
  (forall name,
     In name (public_callables self) <->
     In name (map fst (RemoteLibrary._library self)) /\
     ~ starts_with_underscore name /\
     exists kw, RemoteLibrary.getattr (RemoteLibrary._library self) name
                = Some (Callable kw)).
Proof.
  split.
  - unfold RemoteLibrary.get_keyword_names.
    rewrite (no_enumerator_default self Hno).
    rewrite (scan_public_callables self _ Hnames). cbn [mbind Exc_bind].
    fold (public_callables self).
    destruct (RemoteLibrary._stop_remote_server self); cbn.
    + rewrite map_app. reflexivity.
    + rewrite app_nil_r. reflexivity.
  - intros name. unfold public_callables. rewrite filter_In, andb_true_iff.
    unfold callable_attribute, starts_with_underscore.
    split.
    + intros (Hin & Hp & Hc). split; [exact Hin|]. split.
      * intros [rest ->]. discriminate Hp.
      * destruct (RemoteLibrary.getattr _ name) as [[kw|v]|];
          [eauto | discriminate | discriminate].
    + intros (Hin & Hu & kw & Hkw). split; [exact Hin|]. rewrite Hkw.
      split; [|reflexivity].
      destruct name as [|c rest]; [exfalso; apply (Hnames "" Hin); reflexivity|].
      cbn. destruct (Ascii.eqb c "_") eqn:Ec; [|reflexivity].
      apply Ascii.eqb_eq in Ec. subst c. exfalso. apply Hu. eauto.
Qed.

Lemma X9_default_listing_witness :
  no_enumerator library_with_hidden /\
  RemoteLibrary.get_keyword_names cpython3 library_with_hidden
  = Ok (PList [PText "visible"]) /\
  In "visible" (public_callables library_with_hidden).
Proof.
  assert (Hno : no_enumerator library_with_hidden).
  { intros name kw [->| ->]; discriminate. }
  assert (Hnames : forall name,
             In name (map fst (RemoteLibrary._library library_with_hidden)) ->
             name <> "").
  { intros name [<-|[<-|[]]]; discriminate. }
  split; [exact Hno|].
  destruct (X9_default_listing cpython3 library_with_hidden Hno Hnames) as [H Hin].
  split; [exact H|]. apply Hin. split; [right; left; reflexivity|].
  split; [intros [rest Hr]; discriminate Hr | eexists; reflexivity].
Defined.

(** X10: every public function or method attribute the default listing
    names is resolved by [_get_keyword] to that attribute, except the
    name stop_remote_server, which always resolves to the registered stop
    capability instead: a library function of that name is shadowed by
    it, and when no stop capability is registered it is listed and yet
    resolves to nothing. *)
Theorem X10_listed_names_resolve (self : RemoteLibrary.t) (name : string)
    (Hlisted : In name (public_callables self)) :
  (name <> "stop_remote_server" ->
   exists kw,
     RemoteLibrary.getattr (RemoteLibrary._library self) name = Some (Callable kw) /\
     RemoteLibrary._get_keyword self name = Some kw) /\
  (name = "stop_remote_server" ->
   RemoteLibrary._get_keyword self name = RemoteLibrary._stop_remote_server self).
Proof.
  unfold public_callables in Hlisted. apply filter_In in Hlisted as [_ Hp].
  apply andb_true_iff in Hp as [_ Hc]. unfold callable_attribute in Hc.
  unfold RemoteLibrary._get_keyword. split.
  - intros Hne. apply String.eqb_neq in Hne. rewrite Hne.
    destruct (RemoteLibrary.getattr _ name) as [[kw|v]|]; try discriminate.
    exists kw. split; reflexivity.
  - intros ->. reflexivity.
Qed.

Lemma X10_listed_names_resolve_witness :
  In "stop_remote_server" (public_callables library_own_stop) /\
  RemoteLibrary.get_keyword_names cpython3 library_own_stop
  = Ok (PList [PText "stop_remote_server"]) /\
  RemoteLibrary._get_keyword library_own_stop "stop_remote_server" = None.
Proof.
  assert (Hin : In "stop_remote_server" (public_callables library_own_stop))
    by (left; reflexivity).
  split; [exact Hin|]. split; [reflexivity|].
  apply (X10_listed_names_resolve library_own_stop "stop_remote_server" Hin).
  reflexivity.
Defined.

(** X11: a library's own enumeration method decides the listing: the
    list it returns is used as it is, whatever the library's attributes
    are, with stop_remote_server appended when a stop capability is
    registered; if it returns something that is not a list, the listing
    is that value when no stop capability is registered and the call
    fails with AttributeError (no append) when one is; an exception it
    raises leaves [get_keyword_names]. *)
Theorem X11_own_enumerator_listing (I : Interp) (self : RemoteLibrary.t)
    (kw : Keyword) (Hown : own_enumerator self kw) :
  let returned := result (call kw [] []) in
  (forall e, returned = Raise e ->
     RemoteLibrary.get_keyword_names I self = Raise e) /\
  (forall names, returned = Ok (PList names) ->
     RemoteLibrary.get_keyword_names I self
     = Ok (PList (names ++
                  match RemoteLibrary._stop_remote_server self with
                  | Some _ => [PText "stop_remote_server"]
                  | None => []
                  end))) /\
  (forall v, returned = Ok v -> (forall names, v <> PList names) ->
     match RemoteLibrary._stop_remote_server self with
     | None => RemoteLibrary.get_keyword_names I self = Ok v
     | Some _ =>
         exists e, RemoteLibrary.get_keyword_names I self = Raise e /\
                   exc_type e = AttributeError
     end).
Proof.
  intros returned.
  assert (Hsel :
            RemoteLibrary._is_function_or_method
              (if RemoteLibrary.attr_truthy
                    (RemoteLibrary.getattr (RemoteLibrary._library self)
                       "get_keyword_names")
               then RemoteLibrary.getattr (RemoteLibrary._library self)
                      "get_keyword_names"
               else RemoteLibrary.getattr (RemoteLibrary._library self)
                      "getKeywordNames") = Some kw).
  { destruct Hown as [H|[Hf H]]; [rewrite H | rewrite Hf, H]; reflexivity. }
  unfold RemoteLibrary.get_keyword_names. rewrite Hsel. fold returned.
  split; [|split].
  - intros e ->. reflexivity.
  - intros names ->. cbn [mbind Exc_bind].
    destruct (RemoteLibrary._stop_remote_server self); cbn;
      [reflexivity | rewrite app_nil_r; reflexivity].
  - intros v -> Hv. cbn [mbind Exc_bind].
    destruct (RemoteLibrary._stop_remote_server self); [|reflexivity].
    destruct v as [| | | | | |names| | |];
      try (eexists; split; reflexivity).
    exfalso. apply (Hv names). reflexivity.
Qed.

Lemma X11_own_enumerator_listing_witness :
  own_enumerator library_two_enumerators (returning (PTuple [PText "kw"])) /\
  exists e,
    RemoteLibrary.get_keyword_names cpython3 library_two_enumerators = Raise e /\
    exc_type e = AttributeError.
Proof.
  assert (Hown : own_enumerator library_two_enumerators
                   (returning (PTuple [PText "kw"]))) by (left; reflexivity).
  split; [exact Hown|].
  destruct (X11_own_enumerator_listing cpython3 library_two_enumerators _ Hown)
    as (_ & _ & H).
  apply (H (PTuple [PText "kw"]) eq_refl). intros names Hn. discriminate Hn.
Defined.



(** ** The command line *)

Lemma contains_spec (hay needle : text) :
  contains hay needle = true <-> exists a b, hay = a ++ needle ++ b.
Proof.
  induction hay as [|c hay IH]; cbn [contains]; rewrite orb_true_iff.
  - split.
    + intros [H|H]; [|discriminate].
      apply startswith_spec in H as [r Hr]. exists [], r. exact Hr.
    + intros (a & b & H). left. apply startswith_spec.
      destruct a; [exists b; exact H | discriminate H].
  - rewrite IH, startswith_spec. split.
    + intros [[r Hr]|(a & b & ->)]; [exists [], r; exact Hr|].
      exists (c :: a), b. reflexivity.
    + intros (a & b & H). destruct a as [|c' a].
      * left. exists b. exact H.
      * right. injection H as -> ->. eauto.
Qed.

(** X13: [parse_args] accepts exactly the argument lists of one or two
    items whose first item is stop or test, and exits with the usage
    message on every other; the URI it returns always contains ://, is the
    second argument itself when that contains ://, is http:// followed by
    the second argument when it does not, and is http://127.0.0.1:8270
    when no second argument is given. *)
Theorem X13_parse_args (args : list text) :
  ((exists action uri, parse_args args = Ok (action, uri)) <->
   (exists first rest,
      args = first :: rest /\ (length rest <= 1)%nat /\
      (first = u "stop" \/ first = u "test"))) /\
  (forall e, parse_args args = Raise e -> e = usage_exit) /\
  (forall action uri, parse_args args = Ok (action, uri) ->
     (exists a b, uri = a ++ u "://" ++ b) /\
     (action = stop <-> nth_error args 0 = Some (u "stop")) /\
     (length args = 1%nat -> uri = u "http://127.0.0.1:8270") /\
     (forall given, nth_error args 1 = Some given ->
        ((exists a b, given = a ++ u "://" ++ b) -> uri = given) /\
        (~ (exists a b, given = a ++ u "://" ++ b) -> uri = u "http://" ++ given))).
Proof.
  destruct args as [|first rest].
  { split; [split|split].
    - intros (a & x & H). discriminate H.
    - intros (f & r & H & _). discriminate H.
    - intros e H. injection H as <-. reflexivity.
    - intros a x H. discriminate H. }
  unfold parse_args.
  assert (Hact : forall a, actions first = Some a ->
                 (first = u "stop" \/ first = u "test") /\
                 (a = stop <-> first = u "stop")).
  { unfold actions. intros a.
    destruct (bool_decide (first = u "stop")) eqn:E1.
    - apply bool_decide_eq_true in E1. intros H. injection H as <-. tauto.
    - apply bool_decide_eq_false in E1.
      destruct (bool_decide (first = u "test")) eqn:E2; [|discriminate].
      apply bool_decide_eq_true in E2. intros H. injection H as <-.
      split; [tauto|]. split; [discriminate | contradiction]. }
  assert (Hnone : actions first = None ->
                  ~ (first = u "stop" \/ first = u "test")).
  { unfold actions.
    destruct (bool_decide (first = u "stop")) eqn:E1; [discriminate|].
    destruct (bool_decide (first = u "test")) eqn:E2; [discriminate|].
    apply bool_decide_eq_false in E1, E2. tauto. }
  destruct (2 <? length (first :: rest))%nat eqn:El.
  { apply Nat.ltb_lt in El. cbn in El.
    split; [split|split].
    - intros (a & x & H). discriminate H.
    - intros (f & r & H & Hl & _). injection H as <- <-. lia.
    - intros e H. injection H as <-. reflexivity.
    - intros a x H. discriminate H. }
  apply Nat.ltb_ge in El. cbn in El.
  destruct (actions first) as [a|] eqn:Ea.
  2:{ split; [split|split].
      - intros (a & x & H). discriminate H.
      - intros (f & r & H & _ & Hf). injection H as <- <-.
        exfalso. apply (Hnone eq_refl), Hf.
      - intros e H. injection H as <-. reflexivity.
      - intros a x H. discriminate H. }
  destruct (Hact a eq_refl) as [Hfirst Hstop].
  split; [split|split].
  - intros _. exists first, rest. split; [reflexivity|]. split; [lia | exact Hfirst].
  - intros _. eauto.
  - intros e H. discriminate H.
  - intros a' uri H. injection H as <- <-.
    split; [|split; [|split]].
    + destruct (contains _ (u "://")) eqn:Ec; cbn [negb].
      * apply contains_spec, Ec.
      * eexists (u "http"), _. reflexivity.
    + cbn. rewrite Hstop. split; [intros ->; reflexivity | intros H; injection H; auto].
    + intros Hl. destruct rest; [reflexivity | discriminate Hl].
    + intros given Hg. destruct rest as [|second [|third rest]];
        [discriminate Hg | | cbn in El; lia].
      cbn in Hg. injection Hg as ->.
      destruct (contains given (u "://")) eqn:Ec; cbn [negb].
      * split; [reflexivity|]. intros Hn. exfalso. apply Hn, contains_spec, Ec.
      * split; [|reflexivity]. intros Hy. apply contains_spec in Hy. congruence.
Qed.

Lemma X13_parse_args_witness :
  parse_args [u "stop"; u "localhost:8270"] = Ok (stop, u "http://localhost:8270") /\
  parse_args [u "test"] = Ok (test, u "http://127.0.0.1:8270") /\
  parse_args [u "start"] = Raise usage_exit /\
  exists a b, u "http://localhost:8270" = a ++ u "://" ++ b.
Proof.
  split; [reflexivity|]. split; [reflexivity|]. split; [reflexivity|].
  apply (X13_parse_args [u "stop"; u "localhost:8270"]) with (action := stop).
  reflexivity.
Defined.

(** ** The server *)

Lemma BINARY_search_app (a b : text) :
  BINARY_search (a ++ b) = BINARY_search a || BINARY_search b.
Proof. apply existsb_app. Qed.

Lemma BINARY_search_uint (d : Decimal.uint) :
  BINARY_search (u (NilEmpty.string_of_uint d)) = false.
Proof. induction d; cbn; try reflexivity; exact IHd. Qed.

Lemma BINARY_search_decimal (n : Z) : BINARY_search (decimal n) = false.
Proof.
  unfold decimal, NilZero.string_of_int.
  assert (Hu : forall d, BINARY_search (u (NilZero.string_of_uint d)) = false).
  { intros d. unfold NilZero.string_of_uint.
    destruct d; first [reflexivity | apply (BINARY_search_uint (_ d))]. }
  destruct (Z.to_int n) as [d|d]; [apply Hu|].
  change (BINARY_class 45 || BINARY_search (u (NilZero.string_of_uint d)) = false).
  rewrite Hu. reflexivity.
Qed.

Lemma with_flags_same (self : RobotRemoteServer.t) :
  with_flags self (RobotRemoteServer._allow_stop self)
    (RobotRemoteServer._shutdown self) = self.
Proof. destruct self; reflexivity. Qed.

Lemma log_effect (p : Process) (msg : text) (level : option text) :
  RobotRemoteServer._log p msg level =
  {| world := write (world p) (sys_stdout (world p)) (log_line msg level);
     console := console p ++ log_line msg level;
     files := files p |}.
Proof.
  assert (Hw : forall w s t, sys_stdout (write w s t) = sys_stdout w).
  { intros w s t. unfold write. destruct s; try reflexivity.
    destruct (heap w !! addr) as [io|]; [destruct (closed io)|]; reflexivity. }
  unfold RobotRemoteServer._log, log_line.
  destruct level as [[|c level]|];
    unfold RobotRemoteServer._write_to_stream;
    destruct (sys_stdout (world p)) eqn:E; cbn [world console files];
    rewrite ?E, ?Hw, ?E; cbn [world console files write];
    rewrite <- ?app_assoc; try reflexivity.
Qed.

Lemma stop_effect (self : RobotRemoteServer.t) (p : Process) :
  RobotRemoteServer.stop_remote_server self p =
  (after_stop self,
   {| world := write (world p) (sys_stdout (world p)) (stop_line self);
      console := console p ++ stop_line self;
      files := files p |},
   RobotRemoteServer._allow_stop self || RobotRemoteServer._shutdown self).
Proof.
  unfold RobotRemoteServer.stop_remote_server, after_stop, stop_line.
  rewrite !log_effect.
  destruct self as [addr allow shut lib mis]; destruct allow;
    cbn [RobotRemoteServer._allow_stop RobotRemoteServer._shutdown orb with_flags
         RobotRemoteServer.server_address RobotRemoteServer.library
         RobotRemoteServer.call_mismatch].
  - unfold log_line. rewrite <- !app_assoc. reflexivity.
  - change (log_line ?m (Some (u "WARN"))) with (u "*WARN* " ++ m ++ [10]).
    rewrite <- !app_assoc. reflexivity.
Qed.

Lemma stop_line_safe (self : RobotRemoteServer.t) :
  BINARY_search (fst (RobotRemoteServer.server_address self)) = false ->
  BINARY_search (stop_line self) = false.
Proof.
  intros H. unfold stop_line, RobotRemoteServer.prefix.
  destruct (RobotRemoteServer._allow_stop self);
    rewrite !BINARY_search_app, H, BINARY_search_decimal; reflexivity.
Qed.

Lemma stop_line_printed (self : RobotRemoteServer.t) : stop_line self <> [].
Proof.
  unfold stop_line, RobotRemoteServer.prefix.
  destruct (RobotRemoteServer._allow_stop self); discriminate.
Qed.

(** X14: the stop keyword, run through [run_keyword] without argument,
    always passes.  When stopping is allowed the server is shut down, True
    is returned and the line ... stopping. is both the captured output and
    on the console; when it is not, the server stays as it was, its
    shutdown flag (False while it serves) is returned as the value, and
    the line, marked WARN, is output and on the console. *)
Theorem X14_stop_keyword (I : Interp) (self : RobotRemoteServer.t)
    (kwargs : option (list (string * PyVal))) (p : Process)
    (Hhost : BINARY_search (fst (RobotRemoteServer.server_address self)) = false)
    (Hkw : default [] kwargs = []) :
  exists data,
    RobotRemoteServer.run_keyword I self "stop_remote_server" [] kwargs p =
    (after_stop self,
     {| world := restored (world p)
                   {| printed_out := stop_line self; printed_err := [];
                      result := Ok (PBool (RobotRemoteServer._allow_stop self ||
                                           RobotRemoteServer._shutdown self)) |};
        console := console p ++ stop_line self;
        files := files p |},
     Ok data) /\
    data !! "status" = Some (PText "PASS") /\
    data !! "return" = Some (PBool (RobotRemoteServer._allow_stop self ||
                                    RobotRemoteServer._shutdown self)) /\
    data !! "output" = Some (PStr (Text (stop_line self))) /\
    data !! "error" = None.
Proof.
  unfold RobotRemoteServer.run_keyword, RemoteLibrary.run_keyword.
  rewrite run_keyword_eq. cbv zeta.
  change (RemoteLibrary._get_keyword (RobotRemoteServer._library self)
            "stop_remote_server")
    with (Some (RobotRemoteServer.stop_keyword self)).
  unfold the_run. rewrite Hkw.
  cbn [KeywordRunner._handle_binary_args map call RobotRemoteServer.stop_keyword
       String.eqb Ascii.eqb Bool.eqb].
  rewrite stop_effect.
  change (RobotRemoteServer.captured _ 0) with (stop_line self).
  change (RobotRemoteServer.captured _ 1) with (@nil N).
  cbn [printed_out printed_err result console app].
  set (b := RobotRemoteServer._allow_stop self || RobotRemoteServer._shutdown self).
  assert (Hm : KeywordRunner.merge (stop_line self) [] = stop_line self).
  { unfold KeywordRunner.merge. destruct (stop_line self); cbn; 
      rewrite ?app_nil_r; reflexivity. }
  rewrite Hm.
  assert (Ha : KeywordRunner.attempt I (Ok (PBool b)) =
               (KeywordResult.set_status "PASS"
                  (<["return" := PBool b]> KeywordResult.__init__), None)).
  { unfold KeywordRunner.attempt, KeywordResult.set_return, KeywordResult._add.
    destruct b; reflexivity. }
  rewrite Ha. cbn [fst snd].
  unfold KeywordResult.set_output.
  pose proof (stop_line_printed self) as Hne.
  pose proof (stop_line_safe self Hhost) as Hsafe.
  destruct (stop_line self) as [|c l] eqn:El; [congruence|].
  unfold KeywordResult._handle_binary_result.
  replace (KeywordResult._contains_binary I (Text (c :: l))) with false
    by (unfold KeywordResult._contains_binary; rewrite Hsafe;
        destruct (PY3 I); reflexivity).
  cbn [negb mbind Exc_bind].
  eexists. split; [reflexivity|].
  unfold KeywordResult.set_status.
  repeat split; outcome_lookup; reflexivity.
Qed.

Lemma after_stop_disallowed (self : RobotRemoteServer.t) :
  RobotRemoteServer._allow_stop self = false -> after_stop self = self.
Proof.
  intros H. unfold after_stop. rewrite H. cbn [orb]. rewrite <- H at 1.
  apply with_flags_same.
Qed.

Lemma serve_disallowed (I : Interp) (self : RobotRemoteServer.t) (c : Call)
    (p : Process) :
  RobotRemoteServer._allow_stop self = false ->
  fst (RobotRemoteServer.serve I self c p) = self.
Proof.
  intros H. destruct c as [|name args kwargs| | |]; cbn [RobotRemoteServer.serve fst];
    try reflexivity.
  - unfold RobotRemoteServer.run_keyword.
    destruct (RemoteLibrary.run_keyword I _ name args kwargs (world p)) as [w o].
    rewrite stop_effect.
    destruct (String.eqb name "stop_remote_server"), args, (default [] kwargs);
      cbn [fst]; try reflexivity.
    apply after_stop_disallowed, H.
  - rewrite stop_effect. cbn [fst]. apply after_stop_disallowed, H.
Qed.

Lemma serve_forever_disallowed (I : Interp) (events : list Event)
    (self : RobotRemoteServer.t) (p : Process) :
  RobotRemoteServer._allow_stop self = false ->
  RobotRemoteServer._shutdown self = false ->
  forallb (fun ev => negb (is_Signal ev)) events = true ->
  fst (fst (fst (RobotRemoteServer.serve_forever I events self p))) = self /\
  snd (fst (RobotRemoteServer.serve_forever I events self p)) <> Stopped.
Proof.
  intros Ha Hs. revert p.
  induction events as [|ev events IH]; intros p Hev;
    cbn [RobotRemoteServer.serve_forever]; rewrite Hs.
  - split; [reflexivity | discriminate].
  - cbn [forallb] in Hev. apply andb_prop in Hev as [Hev Hrest].
    destruct ev as [c| |errno|]; try discriminate Hev.
    + pose proof (serve_disallowed I self c p Ha) as Hserve.
      destruct (RobotRemoteServer.serve I self c p) as [self1 p1].
      cbn [fst] in Hserve. subst self1. apply IH, Hrest.
    + apply IH, Hrest.
    + destruct (errno =? EINTR)%Z; [apply IH, Hrest|].
      split; [reflexivity | discriminate].
Qed.

Lemma X14_stop_keyword_witness :
  exists data,
    fst (RobotRemoteServer.run_keyword cpython3 (server_a_b false)
           "stop_remote_server" [] None idle)
    = (server_a_b false,
       {| world := restored (world idle)
                     {| printed_out := stop_line (server_a_b false);
                        printed_err := []; result := Ok (PBool false) |};
          console := stop_line (server_a_b false); files := [] |}) /\
    snd (RobotRemoteServer.run_keyword cpython3 (server_a_b false)
           "stop_remote_server" [] None idle) = Ok data /\
    data !! "return" = Some (PBool false).
Proof.
  destruct (X14_stop_keyword cpython3 (server_a_b false) None idle
              eq_refl eq_refl) as (data & Hrun & _ & Hret & _).
  exists data. rewrite Hrun. repeat split. exact Hret.
Defined.

(** X15: a server started with allow_stop=False is not stopped by
    anything its clients call: as long as no signal is delivered, the
    serving loop never ends as stopped, and the server's flags stay as
    they were set. *)
Theorem X15_requests_cannot_stop (I : Interp) (library : list (string * Attr))
    (address : text * Z) (port_file : option text)
    (mismatch : list PyVal -> list (string * PyVal) -> PyExc)
    (events : list Event) (p : Process)
    (Hev : forallb (fun ev => negb (is_Signal ev)) events = true) :
  let '(self, _, served, _) :=
    RobotRemoteServer.__init__ I library address port_file false mismatch
      events p in
  served <> Stopped /\
  RobotRemoteServer._shutdown self = false /\
  RobotRemoteServer._allow_stop self = false.
Proof.
  unfold RobotRemoteServer.__init__.
  match goal with
  | |- context [RobotRemoteServer.serve_forever I events ?s ?q] =>
      pose proof (serve_forever_disallowed I events s q eq_refl eq_refl Hev)
        as [Hself Hserved];
      destruct (RobotRemoteServer.serve_forever I events s q)
        as [[[self p'] served] rest]
  end.
  cbn [fst snd] in Hself, Hserved. subst self.
  split; [exact Hserved|]. split; reflexivity.
Qed.

Lemma X15_requests_cannot_stop_witness :
  snd (fst (RobotRemoteServer.__init__ cpython3
              (RemoteLibrary._library library_a_b) (u "127.0.0.1", 8270%Z) None
              false (fun _ _ => plain_exc TypeError [])
              [Request call_stop_remote_server;
               Request (call_run_keyword "stop_remote_server" [] None);
               Timeout] idle))
  <> Stopped.
Proof.
  pose proof (X15_requests_cannot_stop cpython3
                (RemoteLibrary._library library_a_b) (u "127.0.0.1", 8270%Z) None
                (fun _ _ => plain_exc TypeError [])
                [Request call_stop_remote_server;
                 Request (call_run_keyword "stop_remote_server" [] None);
                 Timeout] idle eq_refl) as H.
  destruct (RobotRemoteServer.__init__ _ _ _ _ _ _ _ _) as [[[self p'] served] rest].
  exact (proj1 H).
Defined.

Lemma serve_forever_shutdown (I : Interp) (events : list Event)
    (self : RobotRemoteServer.t) (p : Process) :
  RobotRemoteServer._shutdown self = true ->
  RobotRemoteServer.serve_forever I events self p = (self, p, Stopped, events).
Proof. intros H. destruct events; cbn; rewrite H; reflexivity. Qed.

Lemma serve_forever_idle (I : Interp) (pre rest : list Event)
    (self : RobotRemoteServer.t) (p : Process) :
  RobotRemoteServer._shutdown self = false ->
  forallb idle_event pre = true ->
  RobotRemoteServer.serve_forever I (pre ++ rest) self p
  = RobotRemoteServer.serve_forever I rest self p.
Proof.
  intros Hs. induction pre as [|ev pre IH]; intros Hpre; [reflexivity|].
  cbn [forallb] in Hpre. apply andb_prop in Hpre as [Hev Hpre].
  cbn [app RobotRemoteServer.serve_forever]. rewrite Hs.
  destruct ev as [[| | | |]| |errno|]; try discriminate Hev;
    cbn [RobotRemoteServer.serve]; try (apply IH, Hpre).
  cbn [idle_event] in Hev. rewrite Hev. apply IH, Hpre.
Qed.

(** X16: the serving loop ends at the first turn that stops the server (a
    signal, or, when stopping is allowed, the call of stop_remote_server,
    directly or as a keyword): whatever idle turns came before, the server
    is then shut down with stopping allowed, the line ... stopping. has
    been written to the console, and the turns after it are not served. *)
Theorem X16_first_stop_ends_serving (I : Interp) (pre : list Event) (ev : Event)
    (post : list Event) (self : RobotRemoteServer.t) (p : Process)
    (Hs : RobotRemoteServer._shutdown self = false)
    (Hpre : forallb idle_event pre = true)
    (Hstop : stops self ev = true) :
  exists p',
    RobotRemoteServer.serve_forever I (pre ++ ev :: post) self p
    = (with_flags self true true, p', Stopped, post) /\
    console p' = console p ++ RobotRemoteServer.prefix self ++ u "stopping." ++ [10] /\
    files p' = files p.
Proof.
  rewrite (serve_forever_idle I pre _ self p Hs Hpre).
  cbn [RobotRemoteServer.serve_forever]. rewrite Hs.
  destruct ev as [[|name args kwargs| | |]| | |]; try discriminate Hstop;
    cbn [stops] in Hstop.
  - destruct args as [|a args]; [|discriminate Hstop].
    apply andb_prop in Hstop as [Hstop Hallow].
    apply andb_prop in Hstop as [Hname Hkw].
    cbn [RobotRemoteServer.serve]. unfold RobotRemoteServer.run_keyword.
    destruct (RemoteLibrary.run_keyword I _ name [] kwargs (world p)) as [w o].
    rewrite Hname. destruct (default [] kwargs); [|discriminate Hkw].
    rewrite stop_effect. unfold after_stop, stop_line. rewrite Hallow. cbn [orb].
    rewrite serve_forever_shutdown by reflexivity.
    eexists. split; [reflexivity|]. split; reflexivity.
  - cbn [RobotRemoteServer.serve]. rewrite stop_effect.
    unfold after_stop, stop_line. rewrite Hstop. cbn [orb].
    rewrite serve_forever_shutdown by reflexivity.
    eexists. split; [reflexivity|]. split; reflexivity.
  - unfold RobotRemoteServer.stop_with_signal. rewrite stop_effect.
    rewrite serve_forever_shutdown by reflexivity.
    eexists. split; [reflexivity|]. split; reflexivity.
Qed.

Lemma X16_first_stop_ends_serving_witness :
  exists p',
    RobotRemoteServer.serve_forever cpython3
      ([Timeout; Interrupted 4; Request call_get_keyword_names] ++
       Signal :: [Request (call_run_keyword "a" [] None)])
      (server_a_b false) idle
    = (with_flags (server_a_b false) true true, p', Stopped,
       [Request (call_run_keyword "a" [] None)]) /\
    console p' = console idle ++
                 RobotRemoteServer.prefix (server_a_b false) ++ u "stopping." ++ [10] /\
    files p' = files idle.
Proof.
  apply (X16_first_stop_ends_serving cpython3
           [Timeout; Interrupted 4; Request call_get_keyword_names] Signal
           [Request (call_run_keyword "a" [] None)] (server_a_b false) idle
           eq_refl eq_refl eq_refl).
Defined.

(** X17: an interruption by EINTR is passed over like any idle turn, and
    an error with another errno ends the loop with that error at once:
    the server is not shut down, nothing is logged, and the turns after
    it are not served. *)
Theorem X17_error_other_than_EINTR (I : Interp) (pre : list Event) (errno : Z)
    (post : list Event) (self : RobotRemoteServer.t) (p : Process)
    (Hs : RobotRemoteServer._shutdown self = false)
    (Hpre : forallb idle_event pre = true) :
  (errno = EINTR ->
   RobotRemoteServer.serve_forever I (pre ++ Interrupted errno :: post) self p
   = RobotRemoteServer.serve_forever I post self p) /\
  (errno <> EINTR ->
   RobotRemoteServer.serve_forever I (pre ++ Interrupted errno :: post) self p
   = (self, p, Crashed errno, post)).
Proof.
  rewrite (serve_forever_idle I pre _ self p Hs Hpre).
  cbn [RobotRemoteServer.serve_forever]. rewrite Hs. split; intros H.
  - subst errno. reflexivity.
  - apply Z.eqb_neq in H. rewrite H. reflexivity.
Qed.

Lemma X17_error_other_than_EINTR_witness :
  RobotRemoteServer.serve_forever cpython3
    ([Interrupted 4] ++ Interrupted 9 :: [Request call_stop_remote_server])
    (server_a_b true) idle
  = (server_a_b true, idle, Crashed 9, [Request call_stop_remote_server]).
Proof.
  apply (X17_error_other_than_EINTR cpython3 [Interrupted 4] 9
           [Request call_stop_remote_server] (server_a_b true) idle
           eq_refl eq_refl).
  discriminate.
Defined.

(** X18: a line the server logs is written to the console exactly once,
    whether or not output capture is engaged, and never touches the
    files or rebinds the streams; while capture is engaged it is also
    appended to the capture buffer of standard output, and outside an
    invocation nothing but the console changes. *)
Theorem X18_log_reaches_console (p : Process) (msg : text) (level : option text) :
  let p' := RobotRemoteServer._log p msg level in
  console p' = console p ++ log_line msg level /\
  files p' = files p /\
  sys_stdout (world p') = sys_stdout (world p) /\
  sys_stderr (world p') = sys_stderr (world p) /\
  (sys_stdout (world p) = sys___stdout__ -> world p' = world p) /\
  (forall a io,
     sys_stdout (world p) = StringIO_at a ->
     heap (world p) !! a = Some io -> closed io = false ->
     heap (world p') !! a
     = Some {| buffer := buffer io ++ log_line msg level; closed := false |} /\
     forall a', a' <> a -> heap (world p') !! a' = heap (world p) !! a').
Proof.
  cbv zeta. rewrite log_effect. cbn [world console files].
  split; [reflexivity|]. split; [reflexivity|].
  assert (Hw : forall w s t, sys_stdout (write w s t) = sys_stdout w /\
                             sys_stderr (write w s t) = sys_stderr w).
  { intros w s t. unfold write. destruct s; try (split; reflexivity).
    destruct (heap w !! addr) as [io|]; [destruct (closed io)|]; split; reflexivity. }
  split; [apply Hw|]. split; [apply Hw|]. split.
  - intros ->. reflexivity.
  - intros a io -> Ha Hopen. unfold write. rewrite Ha, Hopen. cbn [heap]. split.
    + apply list_lookup_insert_eq. apply lookup_lt_Some in Ha. exact Ha.
    + intros a' Hne. apply list_lookup_insert_ne. congruence.
Qed.

(** X19: the catalog of a server.  The stop keyword is always registered:
    for a hosted library without an enumeration method of its own the
    listing is its public functions and methods followed by
    stop_remote_server, every listed name resolves to a keyword, and the
    stop keyword is described as taking no argument. *)
Theorem X19_server_catalog (I : Interp) (self : RobotRemoteServer.t)
    (Hno : no_enumerator (RobotRemoteServer._library self))
    (Hnames : forall name,
        In name (map fst (RobotRemoteServer.library self)) -> name <> "") :
  RobotRemoteServer.get_keyword_names I self
  = Ok (PList (map PText
                 (public_callables (RobotRemoteServer._library self) ++
                  ["stop_remote_server"]))) /\
  (forall name,
     In name (public_callables (RobotRemoteServer._library self) ++
              ["stop_remote_server"]) ->
     RemoteLibrary._get_keyword (RobotRemoteServer._library self) name <> None) /\
  RobotRemoteServer.get_keyword_arguments I self "stop_remote_server" = Ok [].
Proof.
  split; [|split].
  - unfold RobotRemoteServer.get_keyword_names, RemoteLibrary.get_keyword_names.
    rewrite (no_enumerator_default _ Hno).
    rewrite (scan_public_callables _ _ Hnames). cbn [mbind Exc_bind].
    fold (public_callables (RobotRemoteServer._library self)).
    cbn. rewrite map_app. reflexivity.
  - intros name Hin. unfold RemoteLibrary._get_keyword.
    destruct (String.eqb name "stop_remote_server") eqn:E; [discriminate|].
    apply in_app_or in Hin as [Hin|[<-|[]]]; [|discriminate E].
    unfold public_callables in Hin. apply filter_In in Hin as [_ Hp].
    apply andb_true_iff in Hp as [_ Hc]. unfold callable_attribute in Hc.
    destruct (RemoteLibrary.getattr _ name) as [[kw|v]|]; discriminate.
  - reflexivity.
Qed.

Lemma X19_server_catalog_witness :
  RobotRemoteServer.get_keyword_names cpython3 (server_a_b true)
  = Ok (PList [PText "a"; PText "b"; PText "stop_remote_server"]).
Proof.
  refine (proj1 (X19_server_catalog cpython3 (server_a_b true) _ _)).
  - intros name kw [-> | ->]; discriminate.
  - intros name [<-|[<-|[]]]; discriminate.
Defined.
